(** * Post resource service (golang-gorm-starter): a shallow embedding

    The development follows the layering of the Go program.

    Definitions:
    - [Go]          the fragments of the Go runtime and standard library the
                    program calls ([error] values, [strings.Contains],
                    [strconv.Atoi], 64-bit [int] arithmetic, [time.Time],
                    [uuid.UUID]);
    - [models]      the [Post] entity and the request payloads;
    - [gorm]        the database handle as the service sees it: an interface
                    ([gorm.World]) of the five calls the service makes, plus
                    [time.Now];
    - [services]    post.service.go, written against that interface in a
                    state monad;
    - [controllers] post.controller.go;
    - [memdb]       a reference instance of the interface: an in-memory table
                    that follows gorm's statement building on a relational
                    store with a primary key and a unique title index;
    - [spec], [history], [samples], [wording]
                    the vocabulary of the statements, the worlds the service
                    reaches, and sample data.

    Facts:
    - [GoFacts]     the Go fragments;
    - [AnyWorld]    the service and its handlers over every instance of the
                    interface: input normalisation and error translation;
    - [MemFacts], [OnMemdb]
                    the service on the reference world: what is stored and
                    what is returned;
    - [Instances]   the statements at sample inputs;
    - [Outcomes]    the remaining paths of the service and the four other
                    handlers, over every instance of the interface;
    - [Compose]     how the operations compose on the reference world:
                    conflicts, frames, pages and the invariants of the
                    worlds the service reaches (vocabulary in [paging],
                    [invariant], sample data in [travel]);
    - [Scenarios]   those statements at sample inputs. *)

From Stdlib Require Import ZArith String Ascii List Bool Lia.
Import ListNotations.
Local Open Scope string_scope.
Local Open Scope Z_scope.

(* ===================================================================== *)
(** ** Go runtime and standard library fragments *)
(* ===================================================================== *)

Module Go.

(** Go [error] values.  A package-level error variable (such as
    [gorm.ErrRecordNotFound]) has an identity, its qualified name; an error
    allocated by [errors.New] inside a function is a fresh pointer, equal to
    no package-level variable; [fmt.Errorf] with the verb [%w] keeps the
    formatted text together with the wrapped cause. *)
Inductive error : Type :=
| sentinel (name : string) (text : string)
| errorString (text : string)
| wrapError (msg : string) (err : error).

(** The [Error()] method. *)
Definition Error (e : error) : string :=
  match e with
  | sentinel _ text => text
  | errorString text => text
  | wrapError msg _ => msg
  end.

(** [errors.New(text)]. *)
Definition errors_New (text : string) : error := errorString text.

(** [fmt.Errorf(prefix + "%w", err)]: every format string of the service has
    the shape ["<prefix>: %w"]. *)
Definition fmt_Errorf_w (prefix : string) (err : error) : error :=
  wrapError (prefix ++ Error err) err.

(** [err != nil]. *)
Definition notnil (err : option error) : bool :=
  match err with
  | Some _ => true
  | None => false
  end.

(** [errors.Unwrap]. *)
Definition errors_Unwrap (e : error) : option error :=
  match e with
  | wrapError _ err => Some err
  | _ => None
  end.

(** Interface equality [err == target] when [target] is a package-level
    variable: pointer identity, so only the same variable is equal. *)
Definition same_error (err target : error) : bool :=
  match err, target with
  | sentinel n _, sentinel m _ => String.eqb n m
  | _, _ => false
  end.

(** [errors.Is(err, target)]: walks the [Unwrap] chain. *)
Fixpoint errors_Is (err target : error) : bool :=
  same_error err target
  || match err with
     | wrapError _ inner => errors_Is inner target
     | _ => false
     end.

(** [strings.Contains(s, substr)]. *)
Fixpoint strings_Contains (s substr : string) : bool :=
  String.prefix substr s
  || match s with
     | EmptyString => false
     | String _ rest => strings_Contains rest substr
     end.

(** The Go [int] of a 64-bit platform. *)
Definition minInt : Z := - 2 ^ 63.
Definition maxInt : Z := 2 ^ 63 - 1.

(** Wrap-around of [int] arithmetic (two's complement, 64 bits). *)
Definition wrap (z : Z) : Z := (z + 2 ^ 63) mod 2 ^ 64 - 2 ^ 63.

Definition int_sub (a b : Z) : Z := wrap (a - b).
Definition int_mul (a b : Z) : Z := wrap (a * b).

(** [strconv.ErrSyntax] and [strconv.ErrRange]. *)
Definition strconv_ErrSyntax : error :=
  sentinel "strconv.ErrSyntax" "invalid syntax".
Definition strconv_ErrRange : error :=
  sentinel "strconv.ErrRange" "value out of range".

(** The [*NumError] of [strconv]: its text names the function and the input
    (the input is shown here without Go's quoting), and it unwraps to the
    syntax or range sentinel. *)
Definition NumError (fn input : string) (cause : error) : error :=
  wrapError (("strconv." ++ fn ++ ": parsing ") ++ input ++ ": " ++ Error cause)
            cause.

Definition digit (ch : ascii) : option Z :=
  let d := Z.of_N (N_of_ascii ch) - 48 in
  if (0 <=? d) && (d <=? 9) then Some d else None.

(** The digit loop of [Atoi]/[ParseUint] in base 10: [None] on the first
    byte that is not a decimal digit. *)
Fixpoint digits (s : string) (n : Z) : option Z :=
  match s with
  | EmptyString => Some n
  | String ch rest =>
      match digit ch with
      | Some d => digits rest (n * 10 + d)
      | None => None
      end
  end.

(** [strconv.Atoi(s)], returning Go's pair [(int, error)]: an optional sign,
    then one or more decimal digits; a syntax error gives [0], a value
    outside [int] gives the nearest bound and a range error. *)
Definition strconv_Atoi (s : string) : Z * option error :=
  match s with
  | EmptyString => (0, Some (NumError "Atoi" s strconv_ErrSyntax))
  | String s0 rest =>
      let neg := Ascii.eqb s0 "-" in
      let body := if neg || Ascii.eqb s0 "+" then rest else s in
      match body with
      | EmptyString => (0, Some (NumError "Atoi" s strconv_ErrSyntax))
      | _ =>
          match digits body 0 with
          | None => (0, Some (NumError "Atoi" s strconv_ErrSyntax))
          | Some un =>
              if negb neg && (maxInt <? un)
              then (maxInt, Some (NumError "Atoi" s strconv_ErrRange))
              else if neg && (- minInt <? un)
              then (minInt, Some (NumError "Atoi" s strconv_ErrRange))
              else (if neg then - un else un, None)
          end
      end
  end.

(** [time.Time], as the count of nanoseconds since the zero instant of Go
    (January 1 of year 1, UTC): the zero value [time.Time{}] is [0], and
    every reading of the wall clock is positive. *)
Definition Time : Type := Z.
Definition Time_zero : Time := 0.
Definition Time_IsZero (t : Time) : bool := t =? 0.

(** [uuid.UUID], in its canonical text form; [uuid.Nil] is the zero value. *)
Definition UUID : Type := string.
Definition uuid_Nil : UUID := "00000000-0000-0000-0000-000000000000".
Definition UUID_IsZero (u : UUID) : bool := String.eqb u uuid_Nil.

End Go.

(* ===================================================================== *)
(** ** models *)
(* ===================================================================== *)

Module models.
Import Go.

(** Modelled from the spec: the declaration of [models.Post]
    (post.model.go).  Fields are the ones the service assigns ([Title],
    [Content], [Image], [User], [CreatedAt], [UpdatedAt]) and the identifier
    of the data model; the identifier is the primary key, generated by the
    store at creation, and the title carries a unique index. *)
Record Post : Type := {
  ID : UUID;
  Title : string;
  Content : string;
  Image : string;
  User : UUID;
  CreatedAt : Time;
  UpdatedAt : Time
}.

(** The zero value [models.Post{}]. *)
Definition Post_zero : Post :=
  {| ID := uuid_Nil; Title := ""; Content := ""; Image := "";
     User := uuid_Nil; CreatedAt := Time_zero; UpdatedAt := Time_zero |}.

(** Modelled from the spec: the declaration of [models.CreatePostRequest];
    the service reads [Title], [Content] and [Image]. *)
Record CreatePostRequest : Type := {
  cTitle : string;
  cContent : string;
  cImage : string
}.

(** Modelled from the spec: the declaration of [models.UpdatePost]; the
    service reads [Title], [Content] and [Image]. *)
Record UpdatePost : Type := {
  uTitle : string;
  uContent : string;
  uImage : string
}.

(** Modelled from the spec: the declaration of [models.User]; the controller
    reads [ID] only. *)
Record User_ : Type := { uID : UUID }.

End models.

(* ===================================================================== *)
(** ** The database handle and the clock *)
(* ===================================================================== *)

Module gorm.
Import Go models.

(** [gorm.ErrRecordNotFound]. *)
Definition ErrRecordNotFound : error :=
  sentinel "gorm.ErrRecordNotFound" "record not found".

(** What the service reads of the [*gorm.DB] a call returns. *)
Record Result : Type := {
  Error_ : option error;
  RowsAffected : Z
}.

(** The world the service runs in: the five database calls it makes and the
    wall clock.  [W] is the state of the database and of the clock.  Calls
    that take a pointer to a struct return the struct as the call leaves it.

    - [Create p]            is [s.DB.Create(&p)];
    - [First id]            is [s.DB.First(&post, "id = ?", id)] on a zero
                            [post]: a query, it leaves the state alone;
    - [Updates m v]         is [s.DB.Model(&m).Updates(v)];
    - [Find limit offset]   is [s.DB.Limit(limit).Offset(offset).Find(&posts)];
    - [Delete id]           is [s.DB.Delete(&models.Post{}, "id = ?", id)];
    - [Now]                 is [time.Now()]. *)
Class World (W : Type) : Type := {
  Now : W -> Time * W;
  Create : Post -> W -> (Result * Post) * W;
  First : string -> W -> Result * Post;
  Updates : Post -> Post -> W -> (Result * Post) * W;
  Find : Z -> Z -> W -> Result * list Post;
  Delete : string -> W -> Result * W
}.

End gorm.

(* ===================================================================== *)
(** ** A state monad for the service *)
(* ===================================================================== *)

Definition M (W A : Type) : Type := W -> A * W.

Definition ret {W A} (a : A) : M W A := fun w => (a, w).

Definition bind {W A B} (m : M W A) (k : A -> M W B) : M W B :=
  fun w => let (a, w') := m w in k a w'.

(** A query: reads the state and leaves it as it is. *)
Definition query {W A} (q : W -> A) : M W A := fun w => (q w, w).

Declare Scope go_scope.
Delimit Scope go_scope with go.
Notation "x <- m ;; k" := (bind m (fun x => k))
  (at level 61, m at next level, right associativity) : go_scope.
Notation "' pat <- m ;; k" := (bind m (fun x => match x with pat => k end))
  (at level 61, pat pattern, m at next level, right associativity) : go_scope.

(* ===================================================================== *)
(** ** services/post.service.go *)
(* ===================================================================== *)

Module services.
Import Go models gorm.
Local Open Scope go_scope.

Section PostService.
Context {W : Type} `{World W}.

(** [func (s *PostService) CreatePost(payload, userID)], returning Go's pair
    of a [*models.Post] and an [error] *)
Definition CreatePost (payload : CreatePostRequest) (userID : UUID)
  : M W (option Post * option error) :=
  now <- Now ;;
  let newPost :=
    {| ID := uuid_Nil;
       Title := cTitle payload;
       Content := cContent payload;
       Image := cImage payload;
       User := userID;
       CreatedAt := now;
       UpdatedAt := now |} in
  '(result, newPost) <- Create newPost ;;
  match Error_ result with
  | Some err =>
      if strings_Contains (Error err) "duplicate key"
      then ret (None, Some (errors_New "post with that title already exists"))
      else ret (None, Some (fmt_Errorf_w "failed to create post: " err))
  | None => ret (Some newPost, None)
  end.

(** [func (s *PostService) UpdatePost(postID, payload, userID)], returning a
    [*models.Post] and an [error] *)
Definition UpdatePost (postID : string) (payload : UpdatePost) (userID : UUID)
  : M W (option Post * option error) :=
  '(result, existingPost) <- query (First postID) ;;
  match Error_ result with
  | Some err =>
      if errors_Is err ErrRecordNotFound
      then ret (None, Some (errors_New "post not found"))
      else ret (None, Some (fmt_Errorf_w "failed to fetch post: " err))
  | None =>
      now <- Now ;;
      let updatedData :=
        {| ID := uuid_Nil;
           Title := uTitle payload;
           Content := uContent payload;
           Image := uImage payload;
           User := userID;
           CreatedAt := Time_zero;
           UpdatedAt := now |} in
      '(result, existingPost) <- Updates existingPost updatedData ;;
      match Error_ result with
      | Some err => ret (None, Some (fmt_Errorf_w "failed to update post: " err))
      | None => ret (Some existingPost, None)
      end
  end.

(** [func (s *PostService) FindPostByID(postID)], returning a [*models.Post]
    and an [error] *)
Definition FindPostByID (postID : string) : M W (option Post * option error) :=
  '(result, post) <- query (First postID) ;;
  match Error_ result with
  | Some err =>
      if errors_Is err ErrRecordNotFound
      then ret (None, Some (errors_New "post not found"))
      else ret (None, Some (fmt_Errorf_w "failed to fetch post: " err))
  | None => ret (Some post, None)
  end.

(** [func (s *PostService) FindPosts(page, limit int)], returning a slice
    of posts and an [error] *)
Definition FindPosts (page limit : Z) : M W (option (list Post) * option error) :=
  let offset := int_mul (int_sub page 1) limit in
  '(result, posts) <- query (Find limit offset) ;;
  match Error_ result with
  | Some err => ret (None, Some (fmt_Errorf_w "failed to fetch posts: " err))
  | None => ret (Some posts, None)
  end.

(** [func (s *PostService) DeletePost(postID string) error] *)
Definition DeletePost (postID : string) : M W (option error) :=
  result <- Delete postID ;;
  match Error_ result with
  | Some err => ret (Some (fmt_Errorf_w "failed to delete post: " err))
  | None =>
      if RowsAffected result =? 0
      then ret (Some (errors_New "post not found"))
      else ret None
  end.

End PostService.
End services.

(* ===================================================================== *)
(** ** controllers/post.controller.go *)
(* ===================================================================== *)

Module controllers.
Import Go models gorm.
Local Open Scope go_scope.

(** Values placed in a [gin.H]. *)
Inductive JSON : Type :=
| JNull
| JString (s : string)
| JInt (n : Z)
| JPost (p : Post)
| JPosts (ps : list Post).

Definition gin_H : Type := list (string * JSON).

(** What [ctx.JSON(code, obj)] sends; [obj = nil] is [None]. *)
Record Response : Type := {
  code : Z;
  obj : option gin_H
}.

Definition http_StatusOK : Z := 200.
Definition http_StatusCreated : Z := 201.
Definition http_StatusNoContent : Z := 204.
Definition http_StatusBadRequest : Z := 400.
Definition http_StatusNotFound : Z := 404.
Definition http_StatusConflict : Z := 409.
Definition http_StatusBadGateway : Z := 502.

(** What a handler reads of its [*gin.Context]: the path parameters, the
    query string (first value of each key), the user the authentication
    middleware stored under ["currentUser"], and the outcome of
    [ctx.ShouldBindJSON] on the request body at the payload type [B]. *)
Record Context (B : Type) : Type := {
  params : list (string * string);
  queries : list (string * string);
  currentUser : User_;
  ShouldBindJSON : B + error
}.
Arguments params {B} _.
Arguments queries {B} _.
Arguments currentUser {B} _.
Arguments ShouldBindJSON {B} _.

Fixpoint lookup (key : string) (kvs : list (string * string)) : option string :=
  match kvs with
  | [] => None
  | (k, v) :: rest => if String.eqb k key then Some v else lookup key rest
  end.

(** [ctx.Param(key)]: the empty string when the route has no such parameter. *)
Definition Param {B} (ctx : Context B) (key : string) : string :=
  match lookup key (params ctx) with
  | Some v => v
  | None => ""
  end.

(** [ctx.DefaultQuery(key, defaultValue)]: the default only when the key is
    absent from the query string. *)
Definition DefaultQuery {B} (ctx : Context B) (key defaultValue : string) : string :=
  match lookup key (queries ctx) with
  | Some v => v
  | None => defaultValue
  end.

Definition JSON_ (status : Z) (h : gin_H) : Response :=
  {| code := status; obj := Some h |}.

Definition len {A} (s : option (list A)) : Z :=
  match s with
  | Some l => Z.of_nat (List.length l)
  | None => 0
  end.

Definition posts_JSON (s : option (list Post)) : JSON :=
  match s with
  | Some l => JPosts l
  | None => JNull
  end.

Definition post_JSON (p : option Post) : JSON :=
  match p with
  | Some p => JPost p
  | None => JNull
  end.

Section PostController.
Context {W : Type} `{World W}.

(** [func (pc *PostController) CreatePost(ctx *gin.Context)] *)
Definition CreatePost (ctx : Context CreatePostRequest) : M W Response :=
  match ShouldBindJSON ctx with
  | inr err =>
      ret (JSON_ http_StatusBadRequest
             [("status", JString "fail"); ("message", JString (Error err))])
  | inl payload =>
      '(newPost, err) <- services.CreatePost payload (uID (currentUser ctx)) ;;
      match err with
      | Some err =>
          if String.eqb (Error err) "post with that title already exists"
          then ret (JSON_ http_StatusConflict
                      [("status", JString "fail"); ("message", JString (Error err))])
          else ret (JSON_ http_StatusBadGateway
                      [("status", JString "error"); ("message", JString (Error err))])
      | None =>
          ret (JSON_ http_StatusCreated
                 [("status", JString "success"); ("data", post_JSON newPost)])
      end
  end.

(** [func (pc *PostController) UpdatePost(ctx *gin.Context)] *)
Definition UpdatePost (ctx : Context UpdatePost) : M W Response :=
  let postID := Param ctx "postId" in
  match ShouldBindJSON ctx with
  | inr err =>
      ret (JSON_ http_StatusBadRequest
             [("status", JString "fail"); ("message", JString (Error err))])
  | inl payload =>
      '(updatedPost, err) <- services.UpdatePost postID payload (uID (currentUser ctx)) ;;
      match err with
      | Some err =>
          if String.eqb (Error err) "post not found"
          then ret (JSON_ http_StatusNotFound
                      [("status", JString "fail"); ("message", JString (Error err))])
          else ret (JSON_ http_StatusBadGateway
                      [("status", JString "fail"); ("message", JString (Error err))])
      | None =>
          ret (JSON_ http_StatusOK
                 [("status", JString "success"); ("data", post_JSON updatedPost)])
      end
  end.

(** [func (pc *PostController) FindPostById(ctx *gin.Context)] *)
Definition FindPostById (ctx : Context unit) : M W Response :=
  let postID := Param ctx "postId" in
  '(post, err) <- services.FindPostByID postID ;;
  match err with
  | Some err =>
      if String.eqb (Error err) "post not found"
      then ret (JSON_ http_StatusNotFound
                  [("status", JString "fail"); ("message", JString (Error err))])
      else ret (JSON_ http_StatusBadGateway
                  [("status", JString "error"); ("message", JString (Error err))])
  | None =>
      ret (JSON_ http_StatusOK
             [("status", JString "success"); ("data", post_JSON post)])
  end.

(** [func (pc *PostController) FindPosts(ctx *gin.Context)] *)
Definition FindPosts (ctx : Context unit) : M W Response :=
  let page := DefaultQuery ctx "page" "1" in
  let limit := DefaultQuery ctx "limit" "10" in
  let '(intPage, err) := strconv_Atoi page in
  let intPage := if notnil err || (intPage <? 1) then 1 else intPage in
  let '(intLimit, err) := strconv_Atoi limit in
  let intLimit := if notnil err || (intLimit <? 1) then 10 else intLimit in
  '(posts, err) <- services.FindPosts intPage intLimit ;;
  match err with
  | Some err =>
      ret (JSON_ http_StatusBadGateway
             [("status", JString "error"); ("message", JString (Error err))])
  | None =>
      ret (JSON_ http_StatusOK
             [("status", JString "success"); ("results", JInt (len posts));
              ("data", posts_JSON posts)])
  end.

(** [func (pc *PostController) DeletePost(ctx *gin.Context)] *)
Definition DeletePost (ctx : Context unit) : M W Response :=
  let postID := Param ctx "postId" in
  err <- services.DeletePost postID ;;
  match err with
  | Some err =>
      if String.eqb (Error err) "post not found"
      then ret (JSON_ http_StatusNotFound
                  [("status", JString "fail"); ("message", JString (Error err))])
      else ret (JSON_ http_StatusBadGateway
                  [("status", JString "error"); ("message", JString (Error err))])
  | None => ret {| code := http_StatusNoContent; obj := None |}
  end.

End PostController.
End controllers.

(* ===================================================================== *)
(** ** A reference world: gorm over an in-memory table *)
(* ===================================================================== *)

(** The library gorm.io/gorm and the database behind it are collaborators
    outside the repository.  This instance follows what the library does for
    the five statements of the service: [Create] fills zero timestamps and
    takes the generated key; [Updates] with a struct assigns the fields that
    are not zero, stamps a tracked [UpdatedAt] itself, and writes what it
    assigns into the struct given to [Model]; [Limit] and [Offset] write their
    clauses for values in range; [Delete] and every statement report the rows
    they affected.  The table keeps the values of a row exactly as they were
    written and enforces the primary key and the unique title index with the
    error text of SQLSTATE 23505. *)
Module memdb.
Import Go models gorm.

(** The state: the rows of table [posts] in insertion order, the wall clock
    (the last reading and the time that elapses before each of the next
    readings), the source of generated identifiers (the values the next
    draws return), and whether the schema tracks [UpdatedAt] (gorm does for
    a field of that name unless its tag turns it off). *)
Record DB : Type := {
  posts : list Post;
  clock : positive;
  ticks : list N;
  entropy : nat -> UUID;
  drawn : nat;
  autoUpdateTime : bool
}.

Definition set_posts (w : DB) (rows : list Post) : DB :=
  {| posts := rows; clock := clock w; ticks := ticks w;
     entropy := entropy w; drawn := drawn w;
     autoUpdateTime := autoUpdateTime w |}.

(** [time.Now()] (and gorm's [NowFunc]): the clock never runs backwards and
    never reads the zero instant. *)
Definition Now (w : DB) : Time * DB :=
  let d := match ticks w with [] => 0%N | d :: _ => d end in
  let t := Z.to_pos (Z.pos (clock w) + Z.of_N d) in
  (Z.pos t,
   {| posts := posts w; clock := t; ticks := List.tl (ticks w);
      entropy := entropy w; drawn := drawn w;
      autoUpdateTime := autoUpdateTime w |}).

(** The default of the primary key: a generated identifier. *)
Definition generate (w : DB) : UUID * DB :=
  (entropy w (drawn w),
   {| posts := posts w; clock := clock w; ticks := ticks w;
      entropy := entropy w; drawn := S (drawn w);
      autoUpdateTime := autoUpdateTime w |}).

Fixpoint nodupb (l : list string) : bool :=
  match l with
  | [] => true
  | x :: rest => negb (existsb (String.eqb x) rest) && nodupb rest
  end.

(** The driver's error for SQLSTATE 23505 on the named constraint (the
    name is shown between double quotes, character 34). *)
Definition unique_violation (constraint : string) : error :=
  let dq := String (ascii_of_nat 34) EmptyString in
  errorString
    ("ERROR: duplicate key value violates unique constraint "
       ++ dq ++ constraint ++ dq ++ " (SQLSTATE 23505)").

(** The constraints of the table: the primary key and the unique index on
    the title.  [None] when the rows satisfy both. *)
Definition violated (rows : list Post) : option error :=
  if negb (nodupb (map ID rows)) then Some (unique_violation "posts_pkey")
  else if negb (nodupb (map Title rows)) then Some (unique_violation "idx_posts_title")
  else None.

Definition ok (n : Z) : Result := {| Error_ := None; RowsAffected := n |}.
Definition failed (err : error) : Result := {| Error_ := Some err; RowsAffected := 0 |}.

(** [db.Create(&p)]: zero timestamps are filled from the clock, a zero
    primary key takes its generated default, and the row is appended unless
    a constraint rejects it.  The struct is returned with what was filled
    in; the generated key comes back only with the inserted row. *)
Definition Create (p : Post) (w : DB) : (Result * Post) * DB :=
  let '(curTime, w) := Now w in
  let p :=
    {| ID := ID p; Title := Title p; Content := Content p; Image := Image p;
       User := User p;
       CreatedAt := if Time_IsZero (CreatedAt p) then curTime else CreatedAt p;
       UpdatedAt := if Time_IsZero (UpdatedAt p) then curTime else UpdatedAt p |} in
  let '(id, w) := if UUID_IsZero (ID p) then generate w else (ID p, w) in
  let row :=
    {| ID := id; Title := Title p; Content := Content p; Image := Image p;
       User := User p; CreatedAt := CreatedAt p; UpdatedAt := UpdatedAt p |} in
  match violated (posts w ++ [row])%list with
  | Some err => (failed err, p, w)
  | None => (ok 1, row, set_posts w (posts w ++ [row])%list)
  end.

(** [db.First(&post, "id = ?", id)] on a zero [post]. *)
Definition First (id : string) (w : DB) : Result * Post :=
  match List.find (fun r => String.eqb (ID r) id) (posts w) with
  | Some r => (ok 1, r)
  | None => (failed ErrRecordNotFound, Post_zero)
  end.

(** The assignments [Updates] builds from a struct [v]: a field is assigned
    when its value in [v] is not the zero value of its type; a tracked
    [UpdatedAt] is always assigned, from gorm's own reading [now] of the
    clock.  The same assignments go to the [SET] clause and into the struct
    given to [Model]. *)
Definition assign (auto : bool) (now : Time) (v : Post) (r : Post) : Post :=
  {| ID := if UUID_IsZero (ID v) then ID r else ID v;
     Title := if String.eqb (Title v) "" then Title r else Title v;
     Content := if String.eqb (Content v) "" then Content r else Content v;
     Image := if String.eqb (Image v) "" then Image r else Image v;
     User := if UUID_IsZero (User v) then User r else User v;
     CreatedAt := if Time_IsZero (CreatedAt v) then CreatedAt r else CreatedAt v;
     UpdatedAt := if auto then now
                  else if Time_IsZero (UpdatedAt v) then UpdatedAt r
                  else UpdatedAt v |}.

(** [gorm.ErrMissingWhereClause]. *)
Definition ErrMissingWhereClause : error :=
  sentinel "gorm.ErrMissingWhereClause" "WHERE conditions required".

(** [db.Model(&m).Updates(v)]: the statement is
    [UPDATE posts SET <assignments> WHERE id = <m.ID>]. *)
Definition Updates (m v : Post) (w : DB) : (Result * Post) * DB :=
  let '(now, w) := if autoUpdateTime w then Now w else (Time_zero, w) in
  let auto := autoUpdateTime w in
  let m' := assign auto now v m in
  if UUID_IsZero (ID m) then (failed ErrMissingWhereClause, m', w)
  else
    let hit := fun r => String.eqb (ID r) (ID m) in
    let rows := map (fun r => if hit r then assign auto now v r else r) (posts w) in
    match violated rows with
    | Some err => (failed err, m', w)
    | None =>
        (ok (Z.of_nat (List.length (filter hit (posts w)))), m', set_posts w rows)
    end.

(** [db.Limit(limit).Offset(offset).Find(&posts)]: [OFFSET] is written only
    for a positive offset, [LIMIT] only for a limit that is not negative. *)
Definition Find (limit offset : Z) (w : DB) : Result * list Post :=
  let rows := posts w in
  let rows := if 0 <? offset then skipn (Z.to_nat offset) rows else rows in
  let rows := if 0 <=? limit then firstn (Z.to_nat limit) rows else rows in
  (ok (Z.of_nat (List.length rows)), rows).

(** [db.Delete(&models.Post{}, "id = ?", id)]. *)
Definition Delete (id : string) (w : DB) : Result * DB :=
  let hit := fun r => String.eqb (ID r) id in
  (ok (Z.of_nat (List.length (filter hit (posts w)))),
   set_posts w (filter (fun r => negb (hit r)) (posts w))).

#[global] Instance world : World DB := {|
  gorm.Now := Now;
  gorm.Create := Create;
  gorm.First := First;
  gorm.Updates := Updates;
  gorm.Find := Find;
  gorm.Delete := Delete
|}.

(** The row stored under an identifier, if any. *)
Definition row (id : string) (w : DB) : option Post :=
  List.find (fun r => String.eqb (ID r) id) (posts w).

(** No stored timestamp is ahead of the clock. *)
Definition stamped (w : DB) : Prop :=
  forall r, In r (posts w) ->
    CreatedAt r <= Z.pos (clock w) /\ UpdatedAt r <= Z.pos (clock w).

End memdb.

(* ===================================================================== *)
(** ** Vocabulary of the statements *)
(* ===================================================================== *)

Module spec.
Import Go models gorm controllers.

(** A raw query value is invalid when [strconv.Atoi] rejects it or when it
    denotes an integer below 1. *)
Definition invalid (s : string) : Prop :=
  notnil (snd (strconv_Atoi s)) = true \/ fst (strconv_Atoi s) < 1.

(** The response of the [FindPosts] handler to what the store answered. *)
Definition posts_response (r : Result * list Post) : Response :=
  match Error_ (fst r) with
  | Some err =>
      JSON_ http_StatusBadGateway
        [("status", JString "error");
         ("message", JString ("failed to fetch posts: " ++ Error err))]
  | None =>
      JSON_ http_StatusOK
        [("status", JString "success");
         ("results", JInt (Z.of_nat (List.length (snd r))));
         ("data", JPosts (snd r))]
  end.

(** The three kinds of failure of the service, as the controllers tell them
    apart: by the text of the error. *)
Definition ConflictError (e : error) : Prop :=
  Error e = "post with that title already exists".
Definition NotFoundError (e : error) : Prop :=
  Error e = "post not found".
Definition InternalError (e cause : error) : Prop :=
  errors_Unwrap e = Some cause /\ ~ ConflictError e /\ ~ NotFoundError e.

(** The post [CreatePost] hands to the store. *)
Definition newPost (payload : CreatePostRequest) (userID : UUID) (now : Time) : Post :=
  {| ID := uuid_Nil;
     Title := cTitle payload;
     Content := cContent payload;
     Image := cImage payload;
     User := userID;
     CreatedAt := now;
     UpdatedAt := now |}.

(** The update record [UpdatePost] hands to the store. *)
Definition updatedData (payload : models.UpdatePost) (userID : UUID) (now : Time) : Post :=
  {| ID := uuid_Nil;
     Title := uTitle payload;
     Content := uContent payload;
     Image := uImage payload;
     User := userID;
     CreatedAt := Time_zero;
     UpdatedAt := now |}.

(** The reading of C7 as it is worded: the post [p] that [UpdatePost]
    returns shows, in every field, either the value stored in the row [q]
    before the update or a value the caller supplied (title, content and
    image of the request, and the caller's identifier).  The identifier,
    the creation timestamp and the update timestamp are not supplied by
    the caller, so they would be the stored ones. *)
Definition pre_update_view (payload : models.UpdatePost) (userID : UUID)
    (q p : Post) : Prop :=
  ID p = ID q /\
  (Title p = Title q \/ Title p = uTitle payload) /\
  (Content p = Content q \/ Content p = uContent payload) /\
  (Image p = Image q \/ Image p = uImage payload) /\
  (User p = User q \/ User p = userID) /\
  CreatedAt p = CreatedAt q /\
  UpdatedAt p = UpdatedAt q.

End spec.

(* ===================================================================== *)
(** ** Worlds the service produces, and sample data *)
(* ===================================================================== *)

Module history.
Import Go models gorm.

(** The worlds reached from an empty table by letting time pass and by
    calling the service. *)
Inductive reachable : memdb.DB -> Prop :=
| reach_empty (w : memdb.DB) :
    memdb.posts w = [] -> reachable w
| reach_Now (w : memdb.DB) :
    reachable w -> reachable (snd (memdb.Now w))
| reach_CreatePost (w : memdb.DB) (payload : CreatePostRequest) (userID : UUID) :
    reachable w -> reachable (snd (services.CreatePost payload userID w))
| reach_UpdatePost (w : memdb.DB) (id : string) (payload : models.UpdatePost)
    (userID : UUID) :
    reachable w -> reachable (snd (services.UpdatePost id payload userID w))
| reach_DeletePost (w : memdb.DB) (id : string) :
    reachable w -> reachable (snd (services.DeletePost id w)).

End history.

Module samples.
Import Go models gorm.

Definition U1 : UUID := "11111111-1111-4111-8111-111111111111".
Definition U2 : UUID := "22222222-2222-4222-8222-222222222222".

Definition P1 : UUID := "aaaaaaaa-0000-4000-8000-000000000001".
Definition P2 : UUID := "aaaaaaaa-0000-4000-8000-000000000002".
Definition P3 : UUID := "aaaaaaaa-0000-4000-8000-000000000003".

(** Identifiers the store will generate: [P1], [P2], then [P3] for ever. *)
Definition fresh (n : nat) : UUID :=
  match n with
  | O => P1
  | S O => P2
  | _ => P3
  end.

(** An empty table at time 1000; the clock advances by 5, 0, 7, then stands. *)
Definition empty : memdb.DB :=
  {| memdb.posts := []; memdb.clock := 1000; memdb.ticks := [5; 0; 7]%N;
     memdb.entropy := fresh; memdb.drawn := 0; memdb.autoUpdateTime := true |}.

Definition alps : CreatePostRequest :=
  {| cTitle := "Alps Trip"; cContent := "Three days above Zermatt"; cImage := "" |}.

Definition alps_post : Post :=
  {| ID := P1; Title := "Alps Trip"; Content := "Three days above Zermatt";
     Image := ""; User := U1; CreatedAt := 1005; UpdatedAt := 1005 |}.

(** The table after [U1] created the Alps post in [empty]. *)
Definition one_post : memdb.DB :=
  {| memdb.posts := [alps_post]; memdb.clock := 1005; memdb.ticks := [7]%N;
     memdb.entropy := fresh; memdb.drawn := 1; memdb.autoUpdateTime := true |}.

(** The same table, with a generator about to repeat an identifier, on a
    schema that does not track [UpdatedAt]. *)
Definition repeating : memdb.DB :=
  {| memdb.posts := [alps_post]; memdb.clock := 1005; memdb.ticks := [7]%N;
     memdb.entropy := fresh; memdb.drawn := 0; memdb.autoUpdateTime := false |}.

Definition dolomites : CreatePostRequest :=
  {| cTitle := "Dolomites"; cContent := "Via ferrata"; cImage := "tre-cime.jpg" |}.

(** A request that renames the post and leaves content and image empty. *)
Definition rename : models.UpdatePost :=
  {| uTitle := "Alps Trip 2"; uContent := ""; uImage := "" |}.

(** A world whose store is out of reach: every call fails with [down]. *)
Definition down : error := errorString "dial tcp 127.0.0.1:5432: connect: connection refused".

Definition offline : World unit :=
  {| gorm.Now := fun w => (1, w);
     gorm.Create := fun p w => ({| Error_ := Some down; RowsAffected := 0 |}, p, w);
     gorm.First := fun _ _ => ({| Error_ := Some down; RowsAffected := 0 |}, Post_zero);
     gorm.Updates := fun m _ w => ({| Error_ := Some down; RowsAffected := 0 |}, m, w);
     gorm.Find := fun _ _ _ => ({| Error_ := Some down; RowsAffected := 0 |}, []);
     gorm.Delete := fun _ w => ({| Error_ := Some down; RowsAffected := 0 |}, w) |}.

(** A request for the listing with the given raw [page] and [limit]. *)
Definition listing (page limit : string) : controllers.Context unit :=
  {| controllers.params := [];
     controllers.queries := [("page", page); ("limit", limit)];
     controllers.currentUser := {| uID := U1 |};
     controllers.ShouldBindJSON := inl tt |}.


(** Requests as the handlers receive them. *)
Definition create_by (user : UUID) (payload : CreatePostRequest)
  : controllers.Context CreatePostRequest :=
  {| controllers.params := [];
     controllers.queries := [];
     controllers.currentUser := {| uID := user |};
     controllers.ShouldBindJSON := inl payload |}.

Definition update_by (user : UUID) (id : string) (payload : models.UpdatePost)
  : controllers.Context models.UpdatePost :=
  {| controllers.params := [("postId", id)];
     controllers.queries := [];
     controllers.currentUser := {| uID := user |};
     controllers.ShouldBindJSON := inl payload |}.

Definition by_id (id : string) : controllers.Context unit :=
  {| controllers.params := [("postId", id)];
     controllers.queries := [];
     controllers.currentUser := {| uID := U1 |};
     controllers.ShouldBindJSON := inl tt |}.

End samples.

Module wording.
Import Go models gorm.


(** C7 as it is worded, at one call: what a successful update returns is
    the view of [spec.pre_update_view] on the stored post. *)
Definition update_returns_pre_update_view (id : string)
    (payload : models.UpdatePost) (userID : UUID) (w : memdb.DB) : Prop :=
  forall (q p : Post) (w' : memdb.DB),
    memdb.row id w = Some q ->
    services.UpdatePost id payload userID w = ((Some p, None), w') ->
    spec.pre_update_view payload userID q p.

End wording.

(* ===================================================================== *)
(** ** Pages of the listing, and more sample data *)
(* ===================================================================== *)

Module paging.
Import Go models gorm.

(** The rows [services.FindPosts] returns for a page of the reference
    world; no rows when it fails. *)
Definition page_rows (page limit : Z) (w : memdb.DB) : list Post :=
  match fst (fst (services.FindPosts page limit w)) with
  | Some rows => rows
  | None => []
  end.

(** Pages 1 to [n], one after the other. *)
Fixpoint pages_upto (n : nat) (limit : Z) (w : memdb.DB) : list Post :=
  match n with
  | O => []
  | S k => (pages_upto k limit w ++ page_rows (Z.of_nat (S k)) limit w)%list
  end.

End paging.

Module travel.
Import Go models gorm.

Definition dolomites_post : Post :=
  {| ID := samples.P2; Title := "Dolomites"; Content := "Via ferrata";
     Image := "tre-cime.jpg"; User := samples.U2;
     CreatedAt := 1012; UpdatedAt := 1012 |}.

(** The table after [U2] added the Dolomites post to [samples.one_post]. *)
Definition two_posts : memdb.DB :=
  {| memdb.posts := [samples.alps_post; dolomites_post];
     memdb.clock := 1012; memdb.ticks := [];
     memdb.entropy := samples.fresh; memdb.drawn := 2;
     memdb.autoUpdateTime := true |}.

(** A request that gives the Alps post the title of the Dolomites post. *)
Definition steal_title : models.UpdatePost :=
  {| uTitle := "Dolomites"; uContent := ""; uImage := "" |}.

(** A request whose body does not bind. *)
Definition bad_json : error := errorString "invalid character 'x' looking for beginning of value".

Definition unbound_create : controllers.Context CreatePostRequest :=
  {| controllers.params := [];
     controllers.queries := [];
     controllers.currentUser := {| uID := samples.U1 |};
     controllers.ShouldBindJSON := inr bad_json |}.

Definition unbound_update : controllers.Context models.UpdatePost :=
  {| controllers.params := [("postId", samples.P1)];
     controllers.queries := [];
     controllers.currentUser := {| uID := samples.U1 |};
     controllers.ShouldBindJSON := inr bad_json |}.

End travel.

Module invariant.
Import Go models gorm.

(** Every stored post was created after the zero instant, was last updated
    no earlier than it was created, and no later than the clock reads. *)
Definition ordered (w : memdb.DB) : Prop :=
  forall r, In r (memdb.posts w) ->
    0 < CreatedAt r /\ CreatedAt r <= UpdatedAt r
    /\ UpdatedAt r <= Z.pos (memdb.clock w).

(** No two stored posts share an identifier or a title. *)
Definition distinct (w : memdb.DB) : Prop :=
  forall i j r1 r2,
    nth_error (memdb.posts w) i = Some r1 ->
    nth_error (memdb.posts w) j = Some r2 ->
    i <> j ->
    ID r1 <> ID r2 /\ Title r1 <> Title r2.

End invariant.

(* ===================================================================== *)
(** ** Go fragments: facts *)
(* ===================================================================== *)

Module GoFacts.
Import Go.

Example Atoi_12 : strconv_Atoi "12" = (12, None).
Proof. reflexivity. Qed.

Example Atoi_plus7 : strconv_Atoi "+7" = (7, None).
Proof. reflexivity. Qed.

Example Atoi_minus3 : strconv_Atoi "-3" = (-3, None).
Proof. reflexivity. Qed.

Example Atoi_empty : notnil (snd (strconv_Atoi "")) = true.
Proof. reflexivity. Qed.

Example Atoi_sign_only : notnil (snd (strconv_Atoi "-")) = true.
Proof. reflexivity. Qed.

Example Atoi_letters : notnil (snd (strconv_Atoi "1x")) = true.
Proof. reflexivity. Qed.

Example Atoi_max : strconv_Atoi "9223372036854775807" = (maxInt, None).
Proof. reflexivity. Qed.

Example Atoi_min : strconv_Atoi "-9223372036854775808" = (minInt, None).
Proof. reflexivity. Qed.

Example Atoi_too_big :
  errors_Is (wrapError "" strconv_ErrRange) strconv_ErrRange = true
  /\ option_map (fun e => errors_Is e strconv_ErrRange)
       (snd (strconv_Atoi "9223372036854775808")) = Some true.
Proof. split; reflexivity. Qed.

Example Contains_yes :
  strings_Contains "ERROR: duplicate key value violates" "duplicate key" = true.
Proof. reflexivity. Qed.

Example Contains_no :
  strings_Contains "duplicated key not allowed" "duplicate key" = false.
Proof. reflexivity. Qed.

Lemma wrap_small z : minInt <= z <= maxInt -> wrap z = z.
Proof.
  unfold wrap, minInt, maxInt. intros Hz.
  rewrite Z.mod_small; lia.
Qed.

Lemma digit_nonneg ch d : digit ch = Some d -> 0 <= d.
Proof.
  unfold digit. destruct (0 <=? _) eqn:E; simpl; [|discriminate].
  destruct (_ <=? 9); intros Hd; inversion Hd; subst.
  apply Z.leb_le in E. exact E.
Qed.

Lemma digits_nonneg s : forall n un, 0 <= n -> digits s n = Some un -> 0 <= un.
Proof.
  induction s as [|ch rest IH]; simpl; intros n un Hn Hd.
  - inversion Hd; subst; exact Hn.
  - destruct (digit ch) as [d|] eqn:E; [|discriminate].
    apply digit_nonneg in E. apply (IH (n * 10 + d)); [lia | exact Hd].
Qed.

(** A value [Atoi] accepts is a Go [int]. *)
Lemma Atoi_range s n : strconv_Atoi s = (n, None) -> minInt <= n <= maxInt.
Proof.
  unfold strconv_Atoi. destruct s as [|s0 rest]; [discriminate|].
  set (neg := Ascii.eqb s0 "-").
  set (body := if neg || Ascii.eqb s0 "+" then rest else String s0 rest).
  destruct body as [|b0 brest] eqn:Eb; [discriminate|].
  rewrite <- Eb.
  destruct (digits body 0) as [un|] eqn:Ed; [|discriminate].
  apply digits_nonneg in Ed; [|lia].
  destruct neg; cbn [negb andb].
  - destruct (- minInt <? un) eqn:E; [discriminate|].
    intros Hn; inversion Hn; subst. apply Z.ltb_ge in E.
    unfold minInt, maxInt in *. lia.
  - destruct (maxInt <? un) eqn:E; [discriminate|].
    intros Hn; inversion Hn; subst. apply Z.ltb_ge in E.
    unfold minInt, maxInt in *. lia.
Qed.

End GoFacts.

(* ===================================================================== *)
(** ** The service and its handlers over any world *)
(* ===================================================================== *)

Module AnyWorld.
Import Go GoFacts models gorm controllers spec.

Section Facts.
Context {W : Type} `{World W}.

(** What the service asks of the store for a page: the limit as given and
    the offset [(page - 1) * limit] in [int] arithmetic. *)
Lemma service_FindPosts_query (page limit : Z) (w : W) :
  services.FindPosts page limit w
  = (let r := Find limit (int_mul (int_sub page 1) limit) w in
     match Error_ (fst r) with
     | Some err => (None, Some (fmt_Errorf_w "failed to fetch posts: " err))
     | None => (Some (snd r), None)
     end, w).
Proof.
  unfold services.FindPosts, bind, query, ret.
  destruct (Find limit _ w) as [result posts]. simpl.
  destruct (Error_ result); reflexivity.
Qed.

(** A normalised value lies between 1 and [maxInt]. *)
Lemma normalised_range (s : string) (dflt : Z) :
  1 <= dflt <= maxInt ->
  let '(n, err) := strconv_Atoi s in
  1 <= (if notnil err || (n <? 1) then dflt else n) <= maxInt.
Proof.
  intros Hd. destruct (strconv_Atoi s) as [n err] eqn:E.
  destruct err as [e|]; [exact Hd|]. cbn [notnil orb].
  destruct (n <? 1) eqn:En; [exact Hd|].
  apply Z.ltb_ge in En. apply Atoi_range in E. lia.
Qed.

(** The normalisation as a case distinction on [invalid]. *)
Lemma normalised_cases (s : string) (dflt : Z) :
  let v := (let '(n, err) := strconv_Atoi s in
            if notnil err || (n <? 1) then dflt else n) in
  (invalid s -> v = dflt) /\ (~ invalid s -> v = fst (strconv_Atoi s)).
Proof.
  unfold invalid. destruct (strconv_Atoi s) as [n err]. cbn [fst snd].
  destruct err as [e|]; cbn [notnil orb].
  - split; [reflexivity|]. intros Hn. exfalso. apply Hn. left. reflexivity.
  - destruct (n <? 1) eqn:En.
    + split; [reflexivity|]. intros Hn. exfalso. apply Hn. right.
      apply Z.ltb_lt. exact En.
    + apply Z.ltb_ge in En. split; [|reflexivity].
      intros [Hc|Hc]; [discriminate | lia].
Qed.

(** C1.  The handler of the paginated listing never rejects its [page] and
    [limit] inputs.  Each raw value that [strconv.Atoi] refuses, or that
    denotes an integer below 1, is replaced by its default (1 for the page,
    10 for the limit); a valid value is used as it is.  The store is asked
    for [limit] rows at offset [(page - 1) * limit], computed in [int]
    arithmetic (the exact product whenever it fits an [int]), and the
    response is built from what the store answers.  When both raw values
    are invalid the response is the one for page 1 and limit 10: that of
    the store query with limit 10 and offset 0, and the response of the
    handler to any request that carries page 1 and limit 10. *)
Theorem FindPosts_normalisation (ctx : Context unit) (w : W) :
  let page := DefaultQuery ctx "page" "1" in
  let limit := DefaultQuery ctx "limit" "10" in
  exists intPage intLimit : Z,
    (invalid page -> intPage = 1) /\
    (~ invalid page -> intPage = fst (strconv_Atoi page)) /\
    (invalid limit -> intLimit = 10) /\
    (~ invalid limit -> intLimit = fst (strconv_Atoi limit)) /\
    controllers.FindPosts ctx w
    = (posts_response (Find intLimit (wrap ((intPage - 1) * intLimit)) w), w) /\
    ((intPage - 1) * intLimit <= maxInt ->
     wrap ((intPage - 1) * intLimit) = (intPage - 1) * intLimit) /\
    (invalid page -> invalid limit ->
     controllers.FindPosts ctx w = (posts_response (Find 10 0 w), w)
     /\ forall ctx0 : Context unit,
          DefaultQuery ctx0 "page" "1" = "1" ->
          DefaultQuery ctx0 "limit" "10" = "10" ->
          controllers.FindPosts ctx w = controllers.FindPosts ctx0 w).
Proof.
  intros page limit.
  assert (Hhandler : forall c : Context unit,
    controllers.FindPosts c w
    = (let intPage := (let '(n, err) := strconv_Atoi (DefaultQuery c "page" "1") in
                       if notnil err || (n <? 1) then 1 else n) in
       let intLimit := (let '(n, err) := strconv_Atoi (DefaultQuery c "limit" "10") in
                        if notnil err || (n <? 1) then 10 else n) in
       (posts_response (Find intLimit (wrap ((intPage - 1) * intLimit)) w), w))).
  { intros c. unfold controllers.FindPosts.
    pose proof (normalised_range (DefaultQuery c "page" "1") 1) as Hp.
    destruct (strconv_Atoi (DefaultQuery c "page" "1")) as [n1 e1].
    destruct (strconv_Atoi (DefaultQuery c "limit" "10")) as [n2 e2].
    cbv zeta. unfold bind at 1.
    assert (Hsub : int_sub (if notnil e1 || (n1 <? 1) then 1 else n1) 1
                   = (if notnil e1 || (n1 <? 1) then 1 else n1) - 1).
    { unfold int_sub. apply wrap_small.
      assert (1 <= 1 <= maxInt) as H1 by (unfold maxInt; lia).
      specialize (Hp H1). unfold minInt, maxInt in *. lia. }
    rewrite service_FindPosts_query.
    unfold int_mul. rewrite Hsub. unfold posts_response.
    destruct (Find _ _ w) as [result posts]. cbn [fst snd].
    destruct (Error_ result); reflexivity. }
  pose proof (normalised_cases page 1) as [Hp1 Hp2].
  pose proof (normalised_cases limit 10) as [Hl1 Hl2].
  pose proof (normalised_range page 1) as Hpr.
  pose proof (normalised_range limit 10) as Hlr.
  eexists. eexists.
  split; [exact Hp1|]. split; [exact Hp2|].
  split; [exact Hl1|]. split; [exact Hl2|].
  split; [apply (Hhandler ctx)|].
  split.
  - intros Hfit. apply wrap_small.
    fold page limit in Hpr, Hlr.
    destruct (strconv_Atoi page) as [n1 e1], (strconv_Atoi limit) as [n2 e2].
    assert (1 <= 1 <= maxInt) as H1 by (unfold maxInt; lia).
    assert (1 <= 10 <= maxInt) as H10 by (unfold maxInt; lia).
    specialize (Hpr H1). specialize (Hlr H10).
    unfold minInt, maxInt in *. nia.
  - intros Ip Il.
    assert (Hboth : controllers.FindPosts ctx w = (posts_response (Find 10 0 w), w)).
    { rewrite (Hhandler ctx). fold page limit. cbv zeta.
      rewrite (Hp1 Ip), (Hl1 Il). reflexivity. }
    split; [exact Hboth|].
    intros ctx0 H1 H10. rewrite Hboth, (Hhandler ctx0), H1, H10. reflexivity.
Qed.

(** [CreatePost] as a function of the store's answer to the insert. *)
Lemma CreatePost_unfold (payload : CreatePostRequest) (userID : UUID) (w : W) :
  services.CreatePost payload userID w
  = (let '(now, w1) := Now w in
     let '((result, stored), w2) := Create (newPost payload userID now) w1 in
     (match Error_ result with
      | Some err =>
          if strings_Contains (Error err) "duplicate key"
          then (None, Some (errors_New "post with that title already exists"))
          else (None, Some (fmt_Errorf_w "failed to create post: " err))
      | None => (Some stored, None)
      end, w2)).
Proof.
  unfold services.CreatePost, bind, ret, newPost.
  destruct (Now w) as [now w1].
  destruct (Create _ w1) as [[result stored] w2].
  destruct (Error_ result) as [err|]; [|reflexivity].
  destruct (strings_Contains _ _); reflexivity.
Qed.

(** A wrapped store failure is neither of the two named failures: its text
    starts with the context the service adds. *)
Lemma wrapped_is_internal (context : string) (cause : error) :
  (exists rest, context = String "f" rest) ->
  InternalError (fmt_Errorf_w context cause) cause.
Proof.
  intros [rest ->]. unfold InternalError, ConflictError, NotFoundError.
  cbn. repeat split; intros Heq; discriminate Heq.
Qed.

(** C2.  The outcome of [CreatePost] is decided by the answer of the store
    to the insert.  A store error that reports a duplicate key gives the
    conflict error with the text [post with that title already exists]; any
    other store error gives an internal error that wraps that store error
    (it unwraps to it and quotes its text); and the call succeeds, with the
    post the store filled in, exactly when the insert reported no error. *)
Theorem CreatePost_outcomes (payload : CreatePostRequest) (userID : UUID)
    (w w1 w2 : W) (now : Time) (result : Result) (stored : Post) :
  Now w = (now, w1) ->
  Create (newPost payload userID now) w1 = ((result, stored), w2) ->
  (forall err, Error_ result = Some err ->
     strings_Contains (Error err) "duplicate key" = true ->
     services.CreatePost payload userID w
     = ((None, Some (errors_New "post with that title already exists")), w2)
     /\ ConflictError (errors_New "post with that title already exists")) /\
  (forall err, Error_ result = Some err ->
     strings_Contains (Error err) "duplicate key" = false ->
     exists e,
       services.CreatePost payload userID w = ((None, Some e), w2)
       /\ InternalError e err
       /\ Error e = "failed to create post: " ++ Error err) /\
  (Error_ result = None <->
     snd (fst (services.CreatePost payload userID w)) = None) /\
  (Error_ result = None ->
     services.CreatePost payload userID w = ((Some stored, None), w2)).
Proof.
  intros HNow HCreate. rewrite CreatePost_unfold, HNow, HCreate.
  split; [|split; [|split]].
  - intros err He Hc. rewrite He, Hc. split; reflexivity.
  - intros err He Hc. rewrite He, Hc. eexists. split; [reflexivity|].
    split; [|reflexivity]. apply wrapped_is_internal. eexists. reflexivity.
  - split.
    + intros He. rewrite He. reflexivity.
    + destruct (Error_ result) as [err|]; [|reflexivity].
      destruct (strings_Contains _ _); intros Hn; discriminate Hn.
  - intros He. rewrite He. reflexivity.
Qed.

(** C10.  Whether [CreatePost] reports the title conflict is decided by the
    text of the store error alone: it returns the error
    [post with that title already exists] exactly when the insert failed
    with an error whose text contains [duplicate key], whatever constraint
    or condition produced that text. *)
Theorem CreatePost_conflict_by_text (payload : CreatePostRequest) (userID : UUID)
    (w w1 w2 : W) (now : Time) (result : Result) (stored : Post) :
  Now w = (now, w1) ->
  Create (newPost payload userID now) w1 = ((result, stored), w2) ->
  (forall err, Error_ result = Some err ->
     strings_Contains (Error err) "duplicate key" = true ->
     services.CreatePost payload userID w
     = ((None, Some (errors_New "post with that title already exists")), w2)) /\
  ((exists e, snd (fst (services.CreatePost payload userID w)) = Some e
              /\ ConflictError e)
   <-> (exists err, Error_ result = Some err
                    /\ strings_Contains (Error err) "duplicate key" = true)).
Proof.
  intros HNow HCreate. rewrite CreatePost_unfold, HNow, HCreate.
  split; [|split].
  - intros err He Hc. rewrite He, Hc. reflexivity.
  - intros [e [He Hk]]. destruct (Error_ result) as [err|]; [|discriminate He].
    exists err. split; [reflexivity|].
    destruct (strings_Contains (Error err) "duplicate key"); [reflexivity|].
    cbn in He. inversion He; subst e. unfold ConflictError in Hk.
    cbn in Hk. discriminate Hk.
  - intros [err [He Hc]]. rewrite He, Hc. eexists. split; reflexivity.
Qed.

(** C3.  When the store finds no row for the identifier (its lookup reports
    [gorm.ErrRecordNotFound]), [UpdatePost] fails with the error
    [post not found] and leaves the world exactly as it was: the lookup is
    a query, and neither the clock nor the update statement is reached. *)
Theorem UpdatePost_not_found (postID : string) (payload : models.UpdatePost)
    (userID : UUID) (w : W) (err : error) :
  Error_ (fst (First postID w)) = Some err ->
  errors_Is err ErrRecordNotFound = true ->
  services.UpdatePost postID payload userID w
  = ((None, Some (errors_New "post not found")), w)
  /\ NotFoundError (errors_New "post not found").
Proof.
  intros He Hnf. split; [|reflexivity].
  unfold services.UpdatePost, bind, query, ret.
  destruct (First postID w) as [result existingPost]. cbn [fst] in He.
  rewrite He, Hnf. reflexivity.
Qed.

(** C5.  [DeletePost] is decided by what the store reports for the delete
    statement.  It fails with the error [post not found] exactly when the
    store reports no error and zero affected rows; with no error and a count
    other than zero it succeeds and returns no value; a store error gives an
    internal error that wraps it.  The world is the one the store left. *)
Theorem DeletePost_outcomes (postID : string) (w : W) :
  let result := fst (Delete postID w) in
  let err := fst (services.DeletePost postID w) in
  snd (services.DeletePost postID w) = snd (Delete postID w) /\
  ((exists e, err = Some e /\ NotFoundError e)
   <-> (Error_ result = None /\ RowsAffected result = 0)) /\
  (Error_ result = None -> RowsAffected result = 0 ->
     err = Some (errors_New "post not found")) /\
  (Error_ result = None -> RowsAffected result <> 0 -> err = None) /\
  (forall cause, Error_ result = Some cause ->
     exists e, err = Some e /\ InternalError e cause
               /\ Error e = "failed to delete post: " ++ Error cause).
Proof.
  unfold services.DeletePost, bind, ret.
  destruct (Delete postID w) as [result w']. cbn [fst snd].
  destruct (Error_ result) as [cause|] eqn:He.
  - cbn [fst snd]. split; [reflexivity|]. split; [split|split; [|split]].
    + intros [e [Hs Hk]]. inversion Hs; subst e.
      unfold NotFoundError in Hk. cbn in Hk. discriminate Hk.
    + intros [Hn _]. discriminate Hn.
    + intros Hn. discriminate Hn.
    + intros Hn. discriminate Hn.
    + intros c Hc. inversion Hc; subst c. eexists. split; [reflexivity|].
      split; [|reflexivity]. apply wrapped_is_internal. eexists. reflexivity.
  - destruct (RowsAffected result =? 0) eqn:Hr; cbn [fst snd].
    + apply Z.eqb_eq in Hr. split; [reflexivity|].
      split; [split|split; [|split]].
      * intros _. split; [reflexivity | exact Hr].
      * intros _. eexists. split; reflexivity.
      * reflexivity.
      * intros _ Hnz. contradiction.
      * intros c Hc. discriminate Hc.
    + apply Z.eqb_neq in Hr. split; [reflexivity|].
      split; [split|split; [|split]].
      * intros [e [Hs _]]. discriminate Hs.
      * intros [_ Hz]. contradiction.
      * intros _ Hz. contradiction.
      * reflexivity.
      * intros c Hc. discriminate Hc.
Qed.

End Facts.
End AnyWorld.

(* ===================================================================== *)
(** ** The reference world: facts about the store *)
(* ===================================================================== *)

Module MemFacts.
Import Go GoFacts models gorm spec.

(** A reading of the clock is positive, is not before the last reading, and
    becomes the last reading; the table is not touched. *)
Lemma Now_reading (w : memdb.DB) :
  0 < fst (memdb.Now w)
  /\ Z.pos (memdb.clock w) <= fst (memdb.Now w)
  /\ Z.pos (memdb.clock (snd (memdb.Now w))) = fst (memdb.Now w)
  /\ memdb.posts (snd (memdb.Now w)) = memdb.posts w
  /\ memdb.autoUpdateTime (snd (memdb.Now w)) = memdb.autoUpdateTime w.
Proof.
  unfold memdb.Now. cbn [fst snd memdb.clock memdb.posts memdb.autoUpdateTime].
  repeat split; try rewrite Z2Pos.id; lia.
Qed.

Lemma Now_not_zero (w : memdb.DB) : Time_IsZero (fst (memdb.Now w)) = false.
Proof.
  unfold Time_IsZero. apply Z.eqb_neq.
  pose proof (Now_reading w) as [Hpos _]. lia.
Qed.

(** Looking a row up by identifier commutes with a map that keeps the
    identifiers. *)
Lemma find_map_id (f : Post -> Post) (id : string) (rows : list Post) :
  (forall r, ID (f r) = ID r) ->
  List.find (fun r => String.eqb (ID r) id) (map f rows)
  = option_map f (List.find (fun r => String.eqb (ID r) id) rows).
Proof.
  intros Hid. induction rows as [|r rows IH]; [reflexivity|].
  cbn [map List.find]. rewrite Hid.
  destruct (String.eqb (ID r) id); [reflexivity | exact IH].
Qed.

Lemma find_first (id : string) (rows : list Post) (q : Post) :
  List.find (fun r => String.eqb (ID r) id) rows = Some q ->
  In q rows /\ ID q = id.
Proof.
  intros Hf. apply List.find_some in Hf. destruct Hf as [Hin Heq].
  split; [exact Hin|]. apply String.eqb_eq. exact Heq.
Qed.

(** In a list without duplicates, the last element occurs nowhere before. *)
Lemma nodupb_last (l : list string) (x : string) :
  memdb.nodupb (l ++ [x])%list = true -> existsb (String.eqb x) l = false.
Proof.
  induction l as [|a l IH]; [reflexivity|].
  cbn [app memdb.nodupb existsb]. intros Hn.
  apply andb_true_iff in Hn. destruct Hn as [Ha Hl].
  apply negb_true_iff in Ha. rewrite existsb_app in Ha.
  apply orb_false_iff in Ha. destruct Ha as [_ Hax].
  cbn [existsb] in Hax. rewrite orb_false_r in Hax.
  rewrite String.eqb_sym, Hax. cbn [orb]. apply IH. exact Hl.
Qed.

(** So a row appended under a fresh identifier is the one found for it. *)
Lemma find_appended (rows : list Post) (row : Post) :
  memdb.nodupb (map ID (rows ++ [row])%list) = true ->
  List.find (fun r => String.eqb (ID r) (ID row)) (rows ++ [row])%list = Some row.
Proof.
  rewrite map_app. cbn [map]. intros Hn. apply nodupb_last in Hn.
  induction rows as [|r rows IH].
  - cbn [app List.find]. rewrite String.eqb_refl. reflexivity.
  - cbn [map existsb] in Hn. apply orb_false_iff in Hn. destruct Hn as [Hr Hrows].
    cbn [app List.find]. rewrite String.eqb_sym, Hr. apply IH. exact Hrows.
Qed.

(** A table that passes the constraints has distinct identifiers. *)
Lemma violated_none_ids (rows : list Post) :
  memdb.violated rows = None -> memdb.nodupb (map ID rows) = true.
Proof.
  unfold memdb.violated.
  destruct (memdb.nodupb (map ID rows)); [reflexivity | discriminate].
Qed.

(** [Updates], with the reading of the clock made explicit. *)
Lemma Updates_unfold (m v : Post) (w : memdb.DB) :
  let auto := memdb.autoUpdateTime w in
  let now := if auto then fst (memdb.Now w) else Time_zero in
  let w1 := if auto then snd (memdb.Now w) else w in
  let m' := memdb.assign auto now v m in
  let hit := fun r => String.eqb (ID r) (ID m) in
  let rows := map (fun r => if hit r then memdb.assign auto now v r else r)
                  (memdb.posts w) in
  memdb.Updates m v w
  = if UUID_IsZero (ID m) then (memdb.failed memdb.ErrMissingWhereClause, m', w1)
    else match memdb.violated rows with
         | Some err => (memdb.failed err, m', w1)
         | None =>
             (memdb.ok (Z.of_nat (List.length (filter hit (memdb.posts w)))),
              m', memdb.set_posts w1 rows)
         end.
Proof.
  unfold memdb.Updates.
  destruct (memdb.autoUpdateTime w) eqn:Ea.
  - pose proof (Now_reading w) as (_ & _ & _ & Hp & Ha).
    destruct (memdb.Now w) as [now w1]. cbn [fst snd] in *.
    rewrite Ha, Ea, Hp. reflexivity.
  - cbv zeta. rewrite Ea. reflexivity.
Qed.

End MemFacts.

(* ===================================================================== *)
(** ** The service on the reference world *)
(* ===================================================================== *)

Module OnMemdb.
Import Go GoFacts models gorm spec MemFacts.

(** [UpdatePost] on a stored post, as a function of the store's answer to
    the update statement. *)
Lemma UpdatePost_existing (id : string) (payload : models.UpdatePost)
    (userID : UUID) (w : memdb.DB) (q : Post) :
  memdb.row id w = Some q ->
  services.UpdatePost id payload userID w
  = (let now := fst (memdb.Now w) in
     let r := memdb.Updates q (updatedData payload userID now) (snd (memdb.Now w)) in
     (match Error_ (fst (fst r)) with
      | Some err => (None, Some (fmt_Errorf_w "failed to update post: " err))
      | None => (Some (snd (fst r)), None)
      end, snd r)).
Proof.
  unfold memdb.row. intros Hq.
  unfold services.UpdatePost, bind, query, ret, updatedData.
  cbn [gorm.First gorm.Now gorm.Updates memdb.world].
  unfold memdb.First. rewrite Hq. cbn [memdb.ok Error_].
  destruct (memdb.Now w) as [now w1]. cbn [fst snd].
  destruct (memdb.Updates q _ w1) as [[result m'] w2]. cbn [fst snd].
  destruct (Error_ result); reflexivity.
Qed.

(** A successful update: the struct handed back and the row now stored are
    the same record, the stored row with the assignments of the update
    record written over it. *)
Lemma UpdatePost_success (id : string) (payload : models.UpdatePost)
    (userID : UUID) (w w' : memdb.DB) (q p : Post) :
  memdb.row id w = Some q ->
  services.UpdatePost id payload userID w = ((Some p, None), w') ->
  memdb.row id w' = Some p
  /\ ID p = ID q
  /\ Title p = (if String.eqb (uTitle payload) "" then Title q else uTitle payload)
  /\ Content p = (if String.eqb (uContent payload) "" then Content q else uContent payload)
  /\ Image p = (if String.eqb (uImage payload) "" then Image q else uImage payload)
  /\ User p = (if UUID_IsZero userID then User q else userID)
  /\ CreatedAt p = CreatedAt q
  /\ Z.pos (memdb.clock w) <= UpdatedAt p <= Z.pos (memdb.clock w').
Proof.
  intros Hq. rewrite (UpdatePost_existing _ _ _ _ _ Hq). cbv zeta.
  pose proof (Now_reading w) as (Hpos & Hge & Hck & Hposts & Hauto).
  pose proof (Now_not_zero w) as Hnz.
  destruct (memdb.Now w) as [now w1]. cbn [fst snd] in *.
  rewrite Updates_unfold. cbv zeta.
  pose proof (Now_reading w1) as (_ & Hge1 & Hck1 & _ & _).
  destruct (memdb.Now w1) as [now1 w2]. cbn [fst snd] in *.
  destruct (find_first _ _ _ Hq) as [Hin Hid].
  destruct (UUID_IsZero (ID q)) eqn:Hz; [cbn; discriminate|].
  match goal with |- context [memdb.violated ?rows] =>
    destruct (memdb.violated rows) eqn:Hv end; [cbn; discriminate|].
  cbn [fst snd memdb.ok Error_]. intros Hret. inversion Hret; subst p w'. clear Hret.
  split.
  - unfold memdb.row, memdb.set_posts. cbn [memdb.posts].
    rewrite find_map_id.
    + rewrite Hposts. unfold memdb.row in Hq. rewrite Hq. cbn [option_map].
      rewrite Hid, String.eqb_refl. reflexivity.
    + intros r. destruct (String.eqb (ID r) (ID q)); reflexivity.
  - unfold memdb.assign, updatedData.
    cbn [ID Title Content Image User CreatedAt UpdatedAt].
    repeat (split; [reflexivity|]).
    rewrite Hnz.
    destruct (memdb.autoUpdateTime w1) eqn:Ea;
      unfold memdb.set_posts; cbn [memdb.clock]; lia.
Qed.

(** A failed update leaves the table as it was. *)
Lemma UpdatePost_failure (id : string) (payload : models.UpdatePost)
    (userID : UUID) (w w' : memdb.DB) (q : Post) (e : error) :
  memdb.row id w = Some q ->
  services.UpdatePost id payload userID w = ((None, Some e), w') ->
  memdb.posts w' = memdb.posts w.
Proof.
  intros Hq. rewrite (UpdatePost_existing _ _ _ _ _ Hq). cbv zeta.
  pose proof (Now_reading w) as (_ & _ & _ & Hposts & _).
  destruct (memdb.Now w) as [now w1]. cbn [fst snd] in *.
  rewrite Updates_unfold. cbv zeta.
  assert (Hp1 : memdb.posts
                  (if memdb.autoUpdateTime w1 then snd (memdb.Now w1) else w1)
                = memdb.posts w).
  { destruct (memdb.autoUpdateTime w1); [|exact Hposts].
    pose proof (Now_reading w1) as (_ & _ & _ & Hp & _). congruence. }
  destruct (UUID_IsZero (ID q)).
  - cbn [fst snd]. intros Hret. inversion Hret; subst. exact Hp1.
  - match goal with |- context [memdb.violated ?rows] =>
      destruct (memdb.violated rows) end.
    + cbn [fst snd]. intros Hret. inversion Hret; subst. exact Hp1.
    + cbn. discriminate.
Qed.

(** The two outcomes of [UpdatePost] on a stored post. *)
Lemma UpdatePost_total (id : string) (payload : models.UpdatePost)
    (userID : UUID) (w : memdb.DB) (q : Post) :
  memdb.row id w = Some q ->
  (exists p w', services.UpdatePost id payload userID w = ((Some p, None), w'))
  \/ (exists e w', services.UpdatePost id payload userID w = ((None, Some e), w')).
Proof.
  intros Hq. rewrite (UpdatePost_existing _ _ _ _ _ Hq). cbv zeta.
  destruct (memdb.Updates q _ _) as [[result m'] w2]. cbn [fst snd].
  destruct (Error_ result); [right | left]; eexists; eexists; reflexivity.
Qed.

(** [Create] on the post the service builds: both timestamps are set, so
    the store keeps them, and the primary key is the generated one. *)
Lemma Create_newPost (payload : CreatePostRequest) (userID : UUID)
    (now : Time) (w : memdb.DB) :
  Time_IsZero now = false ->
  memdb.Create (newPost payload userID now) w
  = (let w1 := snd (memdb.Now w) in
     let id := fst (memdb.generate w1) in
     let w2 := snd (memdb.generate w1) in
     let row := {| ID := id; Title := cTitle payload; Content := cContent payload;
                   Image := cImage payload; User := userID;
                   CreatedAt := now; UpdatedAt := now |} in
     match memdb.violated (memdb.posts w ++ [row])%list with
     | Some err => (memdb.failed err, newPost payload userID now, w2)
     | None => (memdb.ok 1, row, memdb.set_posts w2 (memdb.posts w ++ [row])%list)
     end).
Proof.
  intros Hnz. unfold memdb.Create.
  pose proof (Now_reading w) as (_ & _ & _ & Hposts & _).
  destruct (memdb.Now w) as [curTime w1]. cbn [fst snd] in *.
  unfold newPost. cbn [ID Title Content Image User CreatedAt UpdatedAt].
  rewrite Hnz. unfold UUID_IsZero. rewrite String.eqb_refl.
  unfold memdb.generate. cbn [fst snd memdb.posts]. rewrite Hposts.
  reflexivity.
Qed.

(** A successful creation: the post handed back is the request stamped
    with the caller and with the service's single reading of the clock, and
    it is the row now stored under its identifier, appended to the table. *)
Lemma CreatePost_success (payload : CreatePostRequest) (userID : UUID)
    (w w' : memdb.DB) (p : Post) :
  services.CreatePost payload userID w = ((Some p, None), w') ->
  Title p = cTitle payload /\ Content p = cContent payload
  /\ Image p = cImage payload /\ User p = userID
  /\ CreatedAt p = fst (memdb.Now w) /\ UpdatedAt p = fst (memdb.Now w)
  /\ memdb.posts w' = (memdb.posts w ++ [p])%list
  /\ memdb.row (ID p) w' = Some p
  /\ fst (memdb.Now w) <= Z.pos (memdb.clock w').
Proof.
  rewrite AnyWorld.CreatePost_unfold.
  cbn [gorm.Now gorm.Create memdb.world].
  pose proof (Now_reading w) as (_ & _ & Hck & Hposts & _).
  pose proof (Now_not_zero w) as Hnz.
  destruct (memdb.Now w) as [now w1]. cbn [fst snd] in *.
  rewrite (Create_newPost _ _ _ _ Hnz). cbv zeta.
  pose proof (Now_reading w1) as (_ & Hge1 & Hck1 & _ & _).
  destruct (memdb.Now w1) as [now1 w2]. cbn [fst snd] in *.
  rewrite Hposts.
  match goal with |- context [memdb.violated ?rows] =>
    destruct (memdb.violated rows) eqn:Hv end.
  - cbn [memdb.failed Error_].
    destruct (strings_Contains _ _); discriminate.
  - cbn [memdb.ok Error_]. intros Hret. inversion Hret; subst p w'. clear Hret.
    cbn [ID Title Content Image User CreatedAt UpdatedAt].
    repeat (split; [reflexivity|]).
    split; [|unfold memdb.generate, memdb.set_posts; cbn [snd memdb.clock]; lia].
    unfold memdb.row, memdb.set_posts. cbn [memdb.posts].
    apply violated_none_ids in Hv.
    apply (find_appended _ _ Hv).
Qed.

(** [FindPostByID] on a stored post. *)
Lemma FindPostByID_existing (id : string) (w : memdb.DB) (q : Post) :
  memdb.row id w = Some q ->
  services.FindPostByID id w = ((Some q, None), w).
Proof.
  unfold memdb.row. intros Hq.
  unfold services.FindPostByID, bind, query, ret.
  cbn [gorm.First memdb.world]. unfold memdb.First. rewrite Hq. reflexivity.
Qed.

(** The lookup of an identifier under which nothing is stored. *)
Lemma First_absent (id : string) (w : memdb.DB) :
  memdb.row id w = None ->
  memdb.First id w = (memdb.failed ErrRecordNotFound, Post_zero).
Proof.
  unfold memdb.row, memdb.First. intros Hq. rewrite Hq. reflexivity.
Qed.

(** *** The timestamps of stored rows never run ahead of the clock *)

Lemma stamped_later (w w' : memdb.DB) :
  memdb.stamped w ->
  memdb.posts w' = memdb.posts w ->
  Z.pos (memdb.clock w) <= Z.pos (memdb.clock w') ->
  memdb.stamped w'.
Proof.
  unfold memdb.stamped. intros Hs Hp Hc r Hin. rewrite Hp in Hin.
  specialize (Hs r Hin). lia.
Qed.

Lemma stamped_Now (w : memdb.DB) :
  memdb.stamped w -> memdb.stamped (snd (memdb.Now w)).
Proof.
  intros Hs. pose proof (Now_reading w) as (_ & Hge & Hck & Hp & _).
  apply (stamped_later w); [exact Hs | exact Hp | lia].
Qed.

Lemma stamped_CreatePost (payload : CreatePostRequest) (userID : UUID)
    (w : memdb.DB) :
  memdb.stamped w ->
  memdb.stamped (snd (services.CreatePost payload userID w)).
Proof.
  intros Hs. rewrite AnyWorld.CreatePost_unfold.
  cbn [gorm.Now gorm.Create memdb.world].
  pose proof (Now_reading w) as (_ & Hge & Hck & Hposts & _).
  pose proof (Now_not_zero w) as Hnz.
  destruct (memdb.Now w) as [now w1]. cbn [fst snd] in *.
  rewrite (Create_newPost _ _ _ _ Hnz). cbv zeta.
  pose proof (Now_reading w1) as (_ & Hge1 & Hck1 & Hposts1 & _).
  destruct (memdb.Now w1) as [now1 w2]. cbn [fst snd] in *.
  match goal with |- context [memdb.violated ?rows] =>
    destruct (memdb.violated rows) end.
  - cbn [memdb.failed Error_].
    assert (Hgen : memdb.stamped (snd (memdb.generate w2))).
    { apply (stamped_later w); [exact Hs | |]; unfold memdb.generate;
        cbn [snd memdb.posts memdb.clock]; [congruence | lia]. }
    match goal with |- context [if ?c then _ else _] => destruct c end;
      exact Hgen.
  - cbn [memdb.ok Error_ snd]. unfold memdb.stamped, memdb.set_posts.
    cbn [memdb.posts memdb.clock memdb.generate snd].
    intros r Hin. apply in_app_or in Hin. destruct Hin as [Hin|[Hin|[]]].
    + rewrite Hposts in Hin. specialize (Hs r Hin). lia.
    + subst r. cbn [CreatedAt UpdatedAt]. lia.
Qed.

Lemma stamped_UpdatePost (id : string) (payload : models.UpdatePost)
    (userID : UUID) (w : memdb.DB) :
  memdb.stamped w ->
  memdb.stamped (snd (services.UpdatePost id payload userID w)).
Proof.
  intros Hs. destruct (memdb.row id w) as [q|] eqn:Hq.
  - rewrite (UpdatePost_existing _ _ _ _ _ Hq). cbv zeta. cbn [snd].
    pose proof (Now_reading w) as (_ & Hge & Hck & Hposts & _).
    pose proof (Now_not_zero w) as Hnz.
    destruct (memdb.Now w) as [now w1]. cbn [fst snd] in *.
    rewrite Updates_unfold. cbv zeta.
    pose proof (Now_reading w1) as (_ & Hge1 & Hck1 & Hposts1 & _).
    destruct (memdb.Now w1) as [now1 w2]. cbn [fst snd] in *.
    assert (Hlater : memdb.stamped (if memdb.autoUpdateTime w1 then w2 else w1)).
    { apply (stamped_later w); [exact Hs | |];
        destruct (memdb.autoUpdateTime w1); try congruence; lia. }
    destruct (UUID_IsZero (ID q)); [exact Hlater|].
    match goal with |- context [memdb.violated ?rows] =>
      destruct (memdb.violated rows) end; [exact Hlater|].
    cbn [snd]. unfold memdb.stamped, memdb.set_posts.
    cbn [memdb.posts memdb.clock]. intros r Hin.
    apply in_map_iff in Hin. destruct Hin as [r0 [Hr Hin0]].
    rewrite Hposts in Hin0. specialize (Hs r0 Hin0).
    destruct (String.eqb (ID r0) (ID q)).
    + subst r. unfold memdb.assign, updatedData.
      cbn [CreatedAt UpdatedAt]. rewrite Hnz.
      destruct (memdb.autoUpdateTime w1); cbn [Time_IsZero Z.eqb Time_zero]; lia.
    + subst r. destruct (memdb.autoUpdateTime w1); lia.
  - unfold services.UpdatePost, bind, query, ret.
    cbn [gorm.First memdb.world]. rewrite (First_absent _ _ Hq).
    cbn. exact Hs.
Qed.

Lemma stamped_DeletePost (id : string) (w : memdb.DB) :
  memdb.stamped w -> memdb.stamped (snd (services.DeletePost id w)).
Proof.
  intros Hs. unfold services.DeletePost, bind, ret.
  cbn [gorm.Delete memdb.world]. unfold memdb.Delete. cbn [memdb.ok Error_].
  assert (Hf : memdb.stamped
                 (memdb.set_posts w
                    (filter (fun r => negb (String.eqb (ID r) id)) (memdb.posts w)))).
  { unfold memdb.stamped, memdb.set_posts. cbn [memdb.posts memdb.clock].
    intros r Hin. apply filter_In in Hin. destruct Hin as [Hin _].
    exact (Hs r Hin). }
  cbn [RowsAffected]. destruct (_ =? 0); exact Hf.
Qed.

(** Every world the service reaches from an empty table is stamped. *)
Lemma reachable_stamped (w : memdb.DB) :
  history.reachable w -> memdb.stamped w.
Proof.
  induction 1 as [w Hempty | w _ IH | w payload userID _ IH
                  | w id payload userID _ IH | w id _ IH].
  - unfold memdb.stamped. rewrite Hempty. intros r [].
  - apply stamped_Now. exact IH.
  - apply stamped_CreatePost. exact IH.
  - apply stamped_UpdatePost. exact IH.
  - apply stamped_DeletePost. exact IH.
Qed.

(** *** Sample runs *)

Example create_alps :
  services.CreatePost samples.alps samples.U1 samples.empty
  = ((Some samples.alps_post, None), samples.one_post).
Proof. reflexivity. Qed.

Example create_alps_again :
  fst (services.CreatePost samples.alps samples.U2 samples.one_post)
  = (None, Some (errors_New "post with that title already exists")).
Proof. reflexivity. Qed.

Example rename_by_U2 :
  fst (services.UpdatePost samples.P1 samples.rename samples.U2 samples.one_post)
  = (Some {| ID := samples.P1; Title := "Alps Trip 2";
             Content := "Three days above Zermatt"; Image := "";
             User := samples.U2; CreatedAt := 1005; UpdatedAt := 1012 |}, None).
Proof. reflexivity. Qed.

Example delete_twice :
  let w1 := snd (services.DeletePost samples.P1 samples.one_post) in
  fst (services.DeletePost samples.P1 samples.one_post) = None
  /\ fst (services.DeletePost samples.P1 w1) = Some (errors_New "post not found").
Proof. split; reflexivity. Qed.

(** The scenario of the handlers: 201, then 409 for the same title; 404 for
    an update of an unknown identifier; 204 for a delete and 404 for its
    repetition; 502 when the store is out of reach. *)
Example handlers_scenario :
  let code_of {W} (r : controllers.Response * W) := controllers.code (fst r) in
  code_of (controllers.CreatePost (samples.create_by samples.U1 samples.alps)
             samples.empty) = 201
  /\ code_of (controllers.CreatePost (samples.create_by samples.U2 samples.alps)
                samples.one_post) = 409
  /\ code_of (controllers.UpdatePost
                (samples.update_by samples.U2 samples.P2 samples.rename)
                samples.one_post) = 404
  /\ code_of (controllers.UpdatePost
                (samples.update_by samples.U2 samples.P1 samples.rename)
                samples.one_post) = 200
  /\ code_of (controllers.DeletePost (samples.by_id samples.P1) samples.one_post)
     = 204
  /\ code_of (controllers.DeletePost (samples.by_id samples.P1)
                (snd (controllers.DeletePost (samples.by_id samples.P1)
                        samples.one_post))) = 404
  /\ code_of (controllers.FindPosts (H := samples.offline)
                (samples.listing "1" "10") tt) = 502.
Proof. repeat split. Qed.

Example listing_one_post :
  fst (controllers.FindPosts (samples.listing "" "0") samples.one_post)
  = controllers.JSON_ 200
      [("status", controllers.JString "success");
       ("results", controllers.JInt 1);
       ("data", controllers.JPosts [samples.alps_post])].
Proof. reflexivity. Qed.

Example one_post_reachable : history.reachable samples.one_post.
Proof.
  change samples.one_post
    with (snd (services.CreatePost samples.alps samples.U1 samples.empty)).
  apply history.reach_CreatePost. apply history.reach_empty. reflexivity.
Qed.

(** *** The claims about stored rows *)

(** C6.  A successful [CreatePost] returns a post owned by the caller whose
    creation and update timestamps are equal, both being the one reading of
    the clock the service takes, and that reading is not before a reading
    [before] taken just before the call. *)
Theorem CreatePost_stamps (payload : CreatePostRequest) (userID : UUID)
    (w0 w w' : memdb.DB) (before : Time) (p : Post) :
  memdb.Now w0 = (before, w) ->
  services.CreatePost payload userID w = ((Some p, None), w') ->
  User p = userID
  /\ CreatedAt p = UpdatedAt p
  /\ before <= CreatedAt p
  /\ CreatedAt p = fst (memdb.Now w).
Proof.
  intros Hbefore Hcreate.
  destruct (CreatePost_success _ _ _ _ _ Hcreate)
    as (_ & _ & _ & Hu & Hc & Hup & _).
  pose proof (Now_reading w0) as (_ & _ & Hck0 & _ & _).
  pose proof (Now_reading w) as (_ & Hge & _).
  rewrite Hbefore in Hck0. cbn [fst snd] in Hck0.
  repeat split; [exact Hu | congruence | lia | exact Hc].
Qed.

(** C8.  After a successful [CreatePost], [FindPostByID] on the identifier
    of the returned post, in the world the creation left, succeeds with a
    post equal to the returned one in every field (and leaves the world as
    it is). *)
Theorem Create_then_FindByID (payload : CreatePostRequest) (userID : UUID)
    (w w' : memdb.DB) (p : Post) :
  services.CreatePost payload userID w = ((Some p, None), w') ->
  services.FindPostByID (ID p) w' = ((Some p, None), w').
Proof.
  intros Hcreate.
  destruct (CreatePost_success _ _ _ _ _ Hcreate)
    as (_ & _ & _ & _ & _ & _ & _ & Hrow & _).
  apply FindPostByID_existing. exact Hrow.
Qed.


(** C7, amended.  What a successful [UpdatePost] returns is the fetched
    record with the assignments of the update written over it, and no
    second read takes place: identifier and creation timestamp are the
    stored ones; title, content and image are those of the request where
    it gives a non-empty value and the stored ones elsewhere; the owner is
    the caller (the stored owner for a zero identifier); and the update
    timestamp is the new one, not before the clock at the call.  That record
    is, field for field, the row stored after the update. *)
Theorem UpdatePost_returns_updated (id : string) (payload : models.UpdatePost)
    (userID : UUID) (w w' : memdb.DB) (q p : Post) :
  memdb.row id w = Some q ->
  services.UpdatePost id payload userID w = ((Some p, None), w') ->
  ID p = ID q
  /\ CreatedAt p = CreatedAt q
  /\ Title p = (if String.eqb (uTitle payload) "" then Title q else uTitle payload)
  /\ Content p = (if String.eqb (uContent payload) "" then Content q else uContent payload)
  /\ Image p = (if String.eqb (uImage payload) "" then Image q else uImage payload)
  /\ User p = (if String.eqb userID uuid_Nil then User q else userID)
  /\ Z.pos (memdb.clock w) <= UpdatedAt p
  /\ memdb.row id w' = Some p.
Proof.
  intros Hq Hupd.
  destruct (UpdatePost_success _ _ _ _ _ _ _ Hq Hupd)
    as (Hrow & Hid & Ht & Hcn & Hi & Hu & Hc & Hge & _).
  repeat (split; [assumption|]). exact Hrow.
Qed.

(** C9.  Whatever the outcome of an [UpdatePost] on a stored post, a field
    among title, content and image that the request gives as the empty
    string keeps, in the stored row, the value it had: an empty string is
    the zero value of its type and is not assigned. *)
Theorem UpdatePost_skips_empty (id : string) (payload : models.UpdatePost)
    (userID : UUID) (w : memdb.DB) (q : Post) :
  memdb.row id w = Some q ->
  exists r, memdb.row id (snd (services.UpdatePost id payload userID w)) = Some r
            /\ (uTitle payload = "" -> Title r = Title q)
            /\ (uContent payload = "" -> Content r = Content q)
            /\ (uImage payload = "" -> Image r = Image q).
Proof.
  intros Hq.
  destruct (UpdatePost_total id payload userID w q Hq)
    as [(p & w' & Hupd) | (e & w' & Hupd)].
  - destruct (UpdatePost_success _ _ _ _ _ _ _ Hq Hupd)
      as (Hrow & _ & Ht & Hc & Hi & _).
    rewrite Hupd. cbn [snd]. exists p. split; [exact Hrow|].
    repeat split; intros He; rewrite He in *; assumption.
  - pose proof (UpdatePost_failure _ _ _ _ _ _ _ Hq Hupd) as Hposts.
    rewrite Hupd. cbn [snd]. exists q. split.
    + unfold memdb.row in *. rewrite Hposts. exact Hq.
    + repeat split; reflexivity.
Qed.

End OnMemdb.

(* ===================================================================== *)
(** ** The statements at sample inputs *)
(* ===================================================================== *)

Module Instances.
Import Go GoFacts models gorm spec.

(** Two invalid raw values, [abc] and [-5], give the listing of page 1 with
    limit 10. *)
Lemma FindPosts_normalisation_witness :
  controllers.FindPosts (samples.listing "abc" "-5") samples.one_post
  = controllers.FindPosts (samples.listing "1" "10") samples.one_post.
Proof.
  destruct (AnyWorld.FindPosts_normalisation
              (samples.listing "abc" "-5") samples.one_post)
    as (intPage & intLimit & _ & _ & _ & _ & _ & _ & Hboth).
  apply Hboth.
  - left. reflexivity.
  - right. reflexivity.
  - reflexivity.
  - reflexivity.
Defined.

(** A second post with the title of the first: the unique index rejects the
    insert and the service reports the conflict. *)
Lemma CreatePost_outcomes_witness :
  gorm.Now samples.one_post
  = (1012, snd (gorm.Now samples.one_post))
  /\ Error_ (fst (fst (gorm.Create (newPost samples.alps samples.U2 1012)
                         (snd (gorm.Now samples.one_post)))))
     = Some (memdb.unique_violation "idx_posts_title")
  /\ fst (services.CreatePost samples.alps samples.U2 samples.one_post)
     = (None, Some (errors_New "post with that title already exists")).
Proof.
  split; [reflexivity|]. split; [reflexivity|].
  pose proof (AnyWorld.CreatePost_outcomes samples.alps samples.U2
                samples.one_post (snd (gorm.Now samples.one_post))
                (snd (gorm.Create (newPost samples.alps samples.U2 1012)
                        (snd (gorm.Now samples.one_post))))
                1012
                (fst (fst (gorm.Create (newPost samples.alps samples.U2 1012)
                             (snd (gorm.Now samples.one_post)))))
                (snd (fst (gorm.Create (newPost samples.alps samples.U2 1012)
                             (snd (gorm.Now samples.one_post)))))
                eq_refl eq_refl) as (Hdup & _).
  destruct (Hdup (memdb.unique_violation "idx_posts_title") eq_refl eq_refl)
    as [Hrun _].
  rewrite Hrun. reflexivity.
Defined.

(** A generated identifier that repeats the one of a stored post: the
    primary key, not the title index, rejects the insert, and the service
    still reports the title conflict. *)
Lemma CreatePost_conflict_by_text_witness :
  Error_ (fst (fst (gorm.Create (newPost samples.dolomites samples.U2 1012)
                      (snd (gorm.Now samples.repeating)))))
  = Some (memdb.unique_violation "posts_pkey")
  /\ fst (services.CreatePost samples.dolomites samples.U2 samples.repeating)
     = (None, Some (errors_New "post with that title already exists")).
Proof.
  split; [reflexivity|].
  pose proof (AnyWorld.CreatePost_conflict_by_text samples.dolomites samples.U2
                samples.repeating (snd (gorm.Now samples.repeating))
                (snd (gorm.Create (newPost samples.dolomites samples.U2 1012)
                        (snd (gorm.Now samples.repeating))))
                1012
                (fst (fst (gorm.Create (newPost samples.dolomites samples.U2 1012)
                             (snd (gorm.Now samples.repeating)))))
                (snd (fst (gorm.Create (newPost samples.dolomites samples.U2 1012)
                             (snd (gorm.Now samples.repeating)))))
                eq_refl eq_refl) as (Hdup & _).
  rewrite (Hdup (memdb.unique_violation "posts_pkey") eq_refl eq_refl).
  reflexivity.
Defined.

(** No post is stored under [P2]: the update fails and the world stays. *)
Lemma UpdatePost_not_found_witness :
  memdb.row samples.P2 samples.one_post = None
  /\ services.UpdatePost samples.P2 samples.rename samples.U2 samples.one_post
     = ((None, Some (errors_New "post not found")), samples.one_post).
Proof.
  split; [reflexivity|].
  apply (AnyWorld.UpdatePost_not_found samples.P2 samples.rename samples.U2
           samples.one_post ErrRecordNotFound); reflexivity.
Defined.

(** A store out of reach: the delete fails with an internal error that
    wraps the cause. *)
Lemma DeletePost_outcomes_witness :
  exists e,
    fst (services.DeletePost (H := samples.offline) samples.P1 tt) = Some e
    /\ InternalError e samples.down.
Proof.
  destruct (@AnyWorld.DeletePost_outcomes unit samples.offline samples.P1 tt)
    as (_ & _ & _ & _ & Hwrap).
  destruct (Hwrap samples.down eq_refl) as (e & He & Hint & _).
  exists e. split; [exact He | exact Hint].
Defined.

(** The creation of the Alps post, after a reading of 1005. *)
Lemma CreatePost_stamps_witness :
  memdb.Now samples.empty = (1005, snd (memdb.Now samples.empty))
  /\ fst (services.CreatePost samples.alps samples.U1
            (snd (memdb.Now samples.empty)))
     = (Some samples.alps_post, None)
  /\ User samples.alps_post = samples.U1
  /\ CreatedAt samples.alps_post = UpdatedAt samples.alps_post
  /\ 1005 <= CreatedAt samples.alps_post.
Proof.
  split; [reflexivity|]. split; [reflexivity|].
  assert (Hrun : services.CreatePost samples.alps samples.U1
                   (snd (memdb.Now samples.empty))
                 = ((Some samples.alps_post, None),
                    snd (services.CreatePost samples.alps samples.U1
                           (snd (memdb.Now samples.empty)))))
    by (vm_compute; reflexivity).
  destruct (OnMemdb.CreatePost_stamps samples.alps samples.U1 samples.empty
              (snd (memdb.Now samples.empty)) _ 1005
              samples.alps_post eq_refl Hrun)
    as (Hu & Heq & Hge & _).
  split; [exact Hu|]. split; [exact Heq | exact Hge].
Defined.

(** The Alps post is found again under its identifier [P1]. *)
Lemma Create_then_FindByID_witness :
  services.CreatePost samples.alps samples.U1 samples.empty
  = ((Some samples.alps_post, None), samples.one_post)
  /\ services.FindPostByID samples.P1 samples.one_post
     = ((Some samples.alps_post, None), samples.one_post).
Proof.
  split; [reflexivity|].
  apply (OnMemdb.Create_then_FindByID samples.alps samples.U1 samples.empty
           samples.one_post samples.alps_post).
  reflexivity.
Defined.



(** The same rename, seen from the caller. *)
Lemma UpdatePost_returns_updated_witness :
  memdb.row samples.P1 samples.one_post = Some samples.alps_post
  /\ exists p,
       fst (services.UpdatePost samples.P1 samples.rename samples.U2
              samples.one_post) = (Some p, None)
       /\ Title p = "Alps Trip 2"
       /\ Content p = Content samples.alps_post
       /\ User p = samples.U2
       /\ 1005 <= UpdatedAt p.
Proof.
  split; [reflexivity|].
  assert (Hrun :
    services.UpdatePost samples.P1 samples.rename samples.U2 samples.one_post
    = ((Some {| ID := samples.P1; Title := "Alps Trip 2";
                Content := "Three days above Zermatt"; Image := "";
                User := samples.U2; CreatedAt := 1005; UpdatedAt := 1012 |},
        None),
       snd (services.UpdatePost samples.P1 samples.rename samples.U2
              samples.one_post)))
    by (vm_compute; reflexivity).
  destruct (OnMemdb.UpdatePost_returns_updated samples.P1 samples.rename
              samples.U2 samples.one_post _ samples.alps_post _ eq_refl Hrun)
    as (_ & _ & Ht & Hc & _ & Hu & Hge & _).
  eexists. split; [rewrite Hrun; reflexivity|].
  split; [exact Ht|]. split; [exact Hc|]. split; [exact Hu | exact Hge].
Defined.

(** The post returned by that rename carries the update timestamp 1012,
    where the stored one was 1005 and the caller supplied none: C7 as
    worded fails. *)
Lemma UpdatePost_view_counterexample :
  ~ wording.update_returns_pre_update_view
      samples.P1 samples.rename samples.U2 samples.one_post.
Proof.
  intros Hclaim.
  edestruct (Hclaim samples.alps_post) as (_ & _ & _ & _ & _ & _ & Hup).
  - reflexivity.
  - vm_compute. reflexivity.
  - cbn [UpdatedAt samples.alps_post] in Hup. discriminate Hup.
Qed.

(** The rename gives no content and no image: both stay in the row. *)
Lemma UpdatePost_skips_empty_witness :
  memdb.row samples.P1 samples.one_post = Some samples.alps_post
  /\ exists r,
       memdb.row samples.P1
         (snd (services.UpdatePost samples.P1 samples.rename samples.U2
                 samples.one_post)) = Some r
       /\ Content r = "Three days above Zermatt"
       /\ Image r = "".
Proof.
  split; [reflexivity|].
  destruct (OnMemdb.UpdatePost_skips_empty samples.P1 samples.rename samples.U2
              samples.one_post samples.alps_post eq_refl)
    as (r & Hrow & _ & Hc & Hi).
  exists r. split; [exact Hrow|].
  split; [apply Hc | apply Hi]; reflexivity.
Defined.

End Instances.

(* ===================================================================== *)
(** ** Outcomes of the remaining service paths and of the handlers *)
(* ===================================================================== *)

Module Outcomes.
Import Go GoFacts models gorm controllers spec.

Section Facts.
Context {W : Type} `{World W}.

(** X1.  [UpdatePost] on an identifier the store does not report as
    missing.  A lookup error other than record-not-found gives an internal
    error that wraps it, with the world untouched; after a lookup without
    error the clock is read and the update statement is issued, the world is
    the one that statement leaves, a failure of the statement gives an
    internal error that wraps it, and otherwise the struct the statement
    left is returned. *)
Theorem UpdatePost_outcomes (postID : string) (payload : models.UpdatePost)
    (userID : UUID) (w : W) :
  let found := First postID w in
  let run := services.UpdatePost postID payload userID w in
  (forall err, Error_ (fst found) = Some err ->
     errors_Is err ErrRecordNotFound = false ->
     exists e, run = ((None, Some e), w)
               /\ InternalError e err
               /\ Error e = "failed to fetch post: " ++ Error err) /\
  (Error_ (fst found) = None ->
     let r := Updates (snd found) (updatedData payload userID (fst (Now w)))
                (snd (Now w)) in
     snd run = snd r
     /\ (forall err, Error_ (fst (fst r)) = Some err ->
           exists e, fst run = (None, Some e)
                     /\ InternalError e err
                     /\ Error e = "failed to update post: " ++ Error err)
     /\ (Error_ (fst (fst r)) = None -> fst run = (Some (snd (fst r)), None))).
Proof.
  unfold services.UpdatePost, bind, query, ret, updatedData.
  destruct (First postID w) as [result existingPost]. cbn [fst snd].
  split.
  - intros err He Hnf. rewrite He, Hnf. eexists. split; [reflexivity|].
    split; [|reflexivity]. apply AnyWorld.wrapped_is_internal.
    eexists. reflexivity.
  - intros He. rewrite He. destruct (Now w) as [now w1]. cbn [fst snd].
    destruct (Updates existingPost _ w1) as [[result' m'] w2]. cbn [fst snd].
    destruct (Error_ result') as [err|].
    + split; [reflexivity|]. split; [|intros Hn; discriminate Hn].
      intros c Hc. inversion Hc; subst c. eexists. split; [reflexivity|].
      split; [|reflexivity]. apply AnyWorld.wrapped_is_internal.
      eexists. reflexivity.
    + split; [reflexivity|]. split; [|reflexivity].
      intros c Hc. discriminate Hc.
Qed.

(** X2.  [FindPostByID] never changes the world.  It returns the post the
    lookup filled in when the lookup reports no error, the error
    [post not found] when the lookup error is (or wraps)
    [gorm.ErrRecordNotFound], and otherwise an internal error that wraps
    the lookup error. *)
Theorem FindPostByID_outcomes (postID : string) (w : W) :
  let found := First postID w in
  let run := services.FindPostByID postID w in
  snd run = w /\
  match Error_ (fst found) with
  | None => fst run = (Some (snd found), None)
  | Some err =>
      if errors_Is err ErrRecordNotFound
      then fst run = (None, Some (errors_New "post not found"))
      else exists e, fst run = (None, Some e)
                     /\ InternalError e err
                     /\ Error e = "failed to fetch post: " ++ Error err
  end.
Proof.
  unfold services.FindPostByID, bind, query, ret.
  destruct (First postID w) as [result post]. cbn [fst snd].
  destruct (Error_ result) as [err|]; [|split; reflexivity].
  destruct (errors_Is err ErrRecordNotFound); [split; reflexivity|].
  split; [reflexivity|]. eexists. split; [reflexivity|].
  split; [|reflexivity]. apply AnyWorld.wrapped_is_internal.
  eexists. reflexivity.
Qed.

(** X3.  Every operation of the service that returns a value and an error
    returns exactly one of them: the value is nil if and only if the error
    is not. *)
Theorem value_xor_error (w : W) :
  (forall payload userID,
     let r := fst (services.CreatePost payload userID w) in
     fst r = None <-> snd r <> None) /\
  (forall postID payload userID,
     let r := fst (services.UpdatePost postID payload userID w) in
     fst r = None <-> snd r <> None) /\
  (forall postID,
     let r := fst (services.FindPostByID postID w) in
     fst r = None <-> snd r <> None) /\
  (forall page limit,
     let r := fst (services.FindPosts page limit w) in
     fst r = None <-> snd r <> None).
Proof.
  assert (Hyes : forall (A : Type) (e : error),
            (@None A = None <-> Some e <> None)).
  { intros A e. split; [intros _ Hn; discriminate Hn | reflexivity]. }
  assert (Hno : forall (A : Type) (a : A),
            (Some a = None <-> @None error <> None)).
  { intros A a. split; [intros Hn; discriminate Hn | intros Hn; contradiction]. }
  split; [|split; [|split]].
  - intros payload userID. rewrite AnyWorld.CreatePost_unfold.
    destruct (Now w) as [now w1].
    destruct (Create _ w1) as [[result stored] w2].
    destruct (Error_ result) as [err|]; [|apply Hno].
    destruct (strings_Contains _ _); apply Hyes.
  - intros postID payload userID.
    unfold services.UpdatePost, bind, query, ret.
    destruct (First postID w) as [result existingPost].
    destruct (Error_ result) as [err|].
    + destruct (errors_Is err ErrRecordNotFound); apply Hyes.
    + destruct (Now w) as [now w1].
      destruct (Updates existingPost _ w1) as [[result' m'] w2].
      destruct (Error_ result'); [apply Hyes | apply Hno].
  - intros postID. unfold services.FindPostByID, bind, query, ret.
    destruct (First postID w) as [result post].
    destruct (Error_ result) as [err|]; [|apply Hno].
    destruct (errors_Is err ErrRecordNotFound); apply Hyes.
  - intros page limit. rewrite AnyWorld.service_FindPosts_query.
    cbv zeta. cbn [fst].
    destruct (Error_ (fst (Find limit _ w))); [apply Hyes | apply Hno].
Qed.



(** X6.  The handler of the single-post lookup never changes the world and
    answers 200 with the post, 404 with [post not found] when the lookup
    reports record-not-found, and 502 for any other lookup error. *)
Theorem handler_FindPostById (ctx : Context unit) (w : W) :
  let '(found, post) := First (Param ctx "postId") w in
  controllers.FindPostById ctx w
  = (match Error_ found with
     | None => JSON_ 200 [("status", JString "success"); ("data", JPost post)]
     | Some err =>
         if errors_Is err ErrRecordNotFound
         then JSON_ 404 [("status", JString "fail");
                         ("message", JString "post not found")]
         else JSON_ 502 [("status", JString "error");
                         ("message",
                          JString ("failed to fetch post: " ++ Error err))]
     end, w).
Proof.
  unfold controllers.FindPostById, bind at 1.
  unfold services.FindPostByID, bind, query, ret.
  destruct (First (Param ctx "postId") w) as [found post].
  destruct (Error_ found) as [err|]; [|reflexivity].
  destruct (errors_Is err ErrRecordNotFound); reflexivity.
Qed.

(** X7.  The handler of post deletion answers 204 with no body when the
    store reports no error and a row count other than zero, 404 with
    [post not found] when it reports no error and zero rows, and 502 with
    the wrapped text when it reports an error. *)
Theorem handler_DeletePost (ctx : Context unit) (w : W) :
  let '(result, w') := Delete (Param ctx "postId") w in
  controllers.DeletePost ctx w
  = (match Error_ result with
     | Some err =>
         JSON_ 502 [("status", JString "error");
                    ("message", JString ("failed to delete post: " ++ Error err))]
     | None =>
         if RowsAffected result =? 0
         then JSON_ 404 [("status", JString "fail");
                         ("message", JString "post not found")]
         else {| code := 204; obj := None |}
     end, w').
Proof.
  unfold controllers.DeletePost, bind at 1.
  unfold services.DeletePost, bind, ret.
  destruct (Delete (Param ctx "postId") w) as [result w'].
  destruct (Error_ result) as [err|]; [reflexivity|].
  destruct (RowsAffected result =? 0); reflexivity.
Qed.

End Facts.
End Outcomes.

(* ===================================================================== *)
(** ** The service on the reference world: how the operations compose *)
(* ===================================================================== *)

Module Compose.
Import Go GoFacts models gorm spec MemFacts.

(** *** Lists *)

Lemma existsb_eqb_In (x : string) (l : list string) :
  existsb (String.eqb x) l = true <-> In x l.
Proof.
  rewrite existsb_exists. split.
  - intros [y [Hin Heq]]. apply String.eqb_eq in Heq. subst y. exact Hin.
  - intros Hin. exists x. split; [exact Hin | apply String.eqb_refl].
Qed.

(** Two different positions with the same key defeat [nodupb]. *)
Lemma nodupb_nth (l : list string) :
  memdb.nodupb l = true <->
  (forall i j x y, nth_error l i = Some x -> nth_error l j = Some y ->
                   i <> j -> x <> y).
Proof.
  induction l as [|a l IH].
  - split; [|reflexivity]. intros _ i j x y Hi. destruct i; discriminate Hi.
  - cbn [memdb.nodupb]. rewrite andb_true_iff, negb_true_iff. split.
    + intros [Ha Hl] i j x y Hi Hj Hij Hxy. subst y.
      destruct i as [|i], j as [|j]; cbn [nth_error] in Hi, Hj.
      * contradiction.
      * inversion Hi; subst x. apply nth_error_In in Hj.
        apply existsb_eqb_In in Hj. congruence.
      * inversion Hj; subst x. apply nth_error_In in Hi.
        apply existsb_eqb_In in Hi. congruence.
      * apply (proj1 IH Hl i j x x Hi Hj); [congruence | reflexivity].
    + intros Hall. split.
      * destruct (existsb (String.eqb a) l) eqn:He; [|reflexivity].
        apply existsb_eqb_In in He. apply In_nth_error in He.
        destruct He as [j Hj].
        exfalso. apply (Hall 0%nat (S j) a a); [reflexivity | exact Hj | discriminate | reflexivity].
      * apply (proj2 IH). intros i j x y Hi Hj Hij.
        apply (Hall (S i) (S j) x y Hi Hj). congruence.
Qed.

(** A table passes the constraints exactly when identifiers and titles are
    pairwise different. *)
Lemma violated_none_iff (rows : list Post) :
  memdb.violated rows = None
  <-> memdb.nodupb (map ID rows) = true /\ memdb.nodupb (map Title rows) = true.
Proof.
  unfold memdb.violated.
  destruct (memdb.nodupb (map ID rows)); cbn [negb];
    [destruct (memdb.nodupb (map Title rows)); cbn [negb]|];
    split; try discriminate; try (intros [? ?]; discriminate);
    intros _; split; reflexivity.
Qed.

(** Whatever constraint is violated, the error text has [duplicate key]. *)
Lemma violated_text (rows : list Post) (err : error) :
  memdb.violated rows = Some err ->
  strings_Contains (Error err) "duplicate key" = true.
Proof.
  unfold memdb.violated.
  destruct (memdb.nodupb (map ID rows)); cbn [negb].
  - destruct (memdb.nodupb (map Title rows)); cbn [negb]; [discriminate|].
    intros He; inversion He; subst err. reflexivity.
  - intros He; inversion He; subst err. reflexivity.
Qed.

Lemma find_none_filter (id : string) (rows : list Post) :
  List.find (fun r => String.eqb (ID r) id) rows = None ->
  filter (fun r => negb (String.eqb (ID r) id)) rows = rows
  /\ filter (fun r => String.eqb (ID r) id) rows = [].
Proof.
  induction rows as [|r rows IH]; [split; reflexivity|].
  cbn [List.find filter]. destruct (String.eqb (ID r) id); [discriminate|].
  intros Hf. destruct (IH Hf) as [H1 H2]. cbn [negb]. rewrite H1, H2.
  split; reflexivity.
Qed.

Lemma find_some_filter (id : string) (rows : list Post) (q : Post) :
  List.find (fun r => String.eqb (ID r) id) rows = Some q ->
  filter (fun r => String.eqb (ID r) id) rows <> [].
Proof.
  induction rows as [|r rows IH]; [discriminate|].
  cbn [List.find filter]. destruct (String.eqb (ID r) id); [discriminate|].
  exact IH.
Qed.

Lemma find_filter_other (id id' : string) (rows : list Post) :
  id' <> id ->
  List.find (fun r => String.eqb (ID r) id')
    (filter (fun r => negb (String.eqb (ID r) id)) rows)
  = List.find (fun r => String.eqb (ID r) id') rows.
Proof.
  intros Hne. induction rows as [|r rows IH]; [reflexivity|].
  cbn [List.find filter].
  destruct (String.eqb (ID r) id) eqn:E1; cbn [negb].
  - destruct (String.eqb (ID r) id') eqn:E2; [|exact IH].
    apply String.eqb_eq in E1. apply String.eqb_eq in E2. congruence.
  - cbn [List.find]. destruct (String.eqb (ID r) id'); [reflexivity | exact IH].
Qed.

Lemma find_filter_gone (id : string) (rows : list Post) :
  List.find (fun r => String.eqb (ID r) id)
    (filter (fun r => negb (String.eqb (ID r) id)) rows) = None.
Proof.
  induction rows as [|r rows IH]; [reflexivity|].
  cbn [filter]. destruct (String.eqb (ID r) id) eqn:E; cbn [negb]; [exact IH|].
  cbn [List.find]. rewrite E. exact IH.
Qed.

Lemma find_app_other (id : string) (rows : list Post) (row : Post) :
  ID row <> id ->
  List.find (fun r => String.eqb (ID r) id) (rows ++ [row])%list
  = List.find (fun r => String.eqb (ID r) id) rows.
Proof.
  intros Hne. induction rows as [|r rows IH].
  - cbn [app List.find]. apply String.eqb_neq in Hne. rewrite Hne. reflexivity.
  - cbn [app List.find]. destruct (String.eqb (ID r) id); [reflexivity | exact IH].
Qed.

Lemma firstn_plus {A} (a b : nat) (l : list A) :
  firstn (a + b) l = (firstn a l ++ firstn b (skipn a l))%list.
Proof.
  revert l. induction a as [|a IH]; intros l; [reflexivity|].
  destruct l as [|x l]; cbn [Nat.add firstn skipn app].
  - rewrite firstn_nil. reflexivity.
  - rewrite IH. reflexivity.
Qed.

(** *** Closed forms on the reference world *)

(** [CreatePost]: on this world the insert can only be rejected by a
    constraint, so a failure is always the conflict. *)
Lemma CreatePost_run (payload : CreatePostRequest) (userID : UUID)
    (w : memdb.DB) :
  let now := fst (memdb.Now w) in
  let w2 := snd (memdb.generate (snd (memdb.Now (snd (memdb.Now w))))) in
  let row := {| ID := memdb.entropy w (memdb.drawn w);
                Title := cTitle payload; Content := cContent payload;
                Image := cImage payload; User := userID;
                CreatedAt := now; UpdatedAt := now |} in
  memdb.posts w2 = memdb.posts w
  /\ now <= Z.pos (memdb.clock w2)
  /\ Z.pos (memdb.clock w) <= now
  /\ 0 < now
  /\ services.CreatePost payload userID w
     = match memdb.violated (memdb.posts w ++ [row])%list with
       | Some _ =>
           ((None, Some (errors_New "post with that title already exists")), w2)
       | None =>
           ((Some row, None),
            memdb.set_posts w2 (memdb.posts w ++ [row])%list)
       end.
Proof.
  cbv zeta. rewrite AnyWorld.CreatePost_unfold.
  cbn [gorm.Now gorm.Create memdb.world].
  pose proof (Now_reading w) as (Hpos & Hge & Hck & Hposts & _).
  pose proof (Now_not_zero w) as Hnz.
  assert (Hent : memdb.entropy (snd (memdb.Now (snd (memdb.Now w))))
                   (memdb.drawn (snd (memdb.Now (snd (memdb.Now w)))))
                 = memdb.entropy w (memdb.drawn w)) by reflexivity.
  destruct (memdb.Now w) as [now w1]. cbn [fst snd] in *.
  rewrite (OnMemdb.Create_newPost _ _ _ _ Hnz). cbv zeta.
  pose proof (Now_reading w1) as (_ & Hge1 & Hck1 & Hposts1 & _).
  destruct (memdb.Now w1) as [now1 w2]. cbn [fst snd] in *.
  unfold memdb.generate. cbn [fst snd memdb.posts memdb.clock].
  split; [congruence|]. split; [lia|]. split; [exact Hge|]. split; [exact Hpos|].
  rewrite Hent, Hposts.
  match goal with |- context [memdb.violated ?rows] =>
    destruct (memdb.violated rows) as [err|] eqn:Hv end.
  - cbn [memdb.failed Error_]. rewrite (violated_text _ _ Hv). reflexivity.
  - reflexivity.
Qed.

(** [UpdatePost] on a stored post: either nothing is written and an error
    is returned, or the rows under the identifier receive the assignments
    of the update record, stamped with one reading [stamp] of the clock,
    and the result passed the constraints. *)
Lemma UpdatePost_run (id : string) (payload : models.UpdatePost)
    (userID : UUID) (w : memdb.DB) (q : Post) :
  memdb.row id w = Some q ->
  let run := services.UpdatePost id payload userID w in
  Z.pos (memdb.clock w) <= Z.pos (memdb.clock (snd run)) /\
  ((exists cause,
      fst run = (None, Some (fmt_Errorf_w "failed to update post: " cause))
      /\ memdb.posts (snd run) = memdb.posts w
      /\ (UUID_IsZero id = true
          \/ exists stamp,
               memdb.violated
                 (map (fun r => if String.eqb (ID r) id
                                then memdb.assign true stamp
                                       (updatedData payload userID stamp) r
                                else r) (memdb.posts w)) = Some cause))
   \/ (exists stamp,
         0 < stamp
         /\ Z.pos (memdb.clock w) <= stamp <= Z.pos (memdb.clock (snd run))
         /\ fst run
            = (Some (memdb.assign true stamp (updatedData payload userID stamp) q),
               None)
         /\ memdb.posts (snd run)
            = map (fun r => if String.eqb (ID r) id
                            then memdb.assign true stamp
                                   (updatedData payload userID stamp) r
                            else r) (memdb.posts w)
         /\ memdb.violated (memdb.posts (snd run)) = None)).
Proof.
  intros Hq. cbv zeta. rewrite (OnMemdb.UpdatePost_existing _ _ _ _ _ Hq).
  cbv zeta.
  pose proof (Now_reading w) as (Hpos & Hge & Hck & Hposts & _).
  pose proof (Now_not_zero w) as Hnz.
  destruct (memdb.Now w) as [now w1]. cbn [fst snd] in *.
  rewrite Updates_unfold. cbv zeta.
  pose proof (Now_reading w1) as (Hpos1 & Hge1 & Hck1 & Hposts1 & _).
  destruct (memdb.Now w1) as [now1 w2]. cbn [fst snd] in *.
  destruct (find_first _ _ _ Hq) as [Hin Hid]. rewrite Hid.
  set (stamp := if memdb.autoUpdateTime w1 then now1 else now).
  assert (Hstamp : 0 < stamp /\ Z.pos (memdb.clock w) <= stamp
                   /\ stamp <= Z.pos (memdb.clock
                        (if memdb.autoUpdateTime w1 then w2 else w1))).
  { unfold stamp. destruct (memdb.autoUpdateTime w1); lia. }
  assert (Hassign : forall r,
            memdb.assign (memdb.autoUpdateTime w1)
              (if memdb.autoUpdateTime w1 then now1 else Time_zero)
              {| ID := uuid_Nil; Title := uTitle payload;
                 Content := uContent payload; Image := uImage payload;
                 User := userID; CreatedAt := Time_zero; UpdatedAt := now |} r
            = memdb.assign true stamp (updatedData payload userID stamp) r).
  { intros r. unfold memdb.assign, updatedData, stamp.
    cbn [ID Title Content Image User CreatedAt UpdatedAt].
    destruct (memdb.autoUpdateTime w1); [reflexivity|]. rewrite Hnz. reflexivity. }
  assert (Hrows :
    map (fun r => if String.eqb (ID r) id
                  then memdb.assign (memdb.autoUpdateTime w1)
                         (if memdb.autoUpdateTime w1 then now1 else Time_zero)
                         {| ID := uuid_Nil; Title := uTitle payload;
                            Content := uContent payload; Image := uImage payload;
                            User := userID; CreatedAt := Time_zero;
                            UpdatedAt := now |} r
                  else r)
      (memdb.posts w1)
    = map (fun r => if String.eqb (ID r) id
                    then memdb.assign true stamp (updatedData payload userID stamp) r
                    else r) (memdb.posts w)).
  { rewrite Hposts. apply map_ext. intros r. rewrite Hassign. reflexivity. }
  assert (Hp : memdb.posts (if memdb.autoUpdateTime w1 then w2 else w1)
               = memdb.posts w)
    by (destruct (memdb.autoUpdateTime w1); congruence).
  assert (Hclock : Z.pos (memdb.clock w)
                   <= Z.pos (memdb.clock
                        (if memdb.autoUpdateTime w1 then w2 else w1)))
    by (destruct (memdb.autoUpdateTime w1); lia).
  unfold updatedData.
  destruct (UUID_IsZero id) eqn:Hz.
  - cbn [fst snd memdb.failed Error_]. split; [exact Hclock|].
    left. eexists. split; [reflexivity|]. split; [exact Hp|]. left. reflexivity.
  - rewrite Hrows.
    match goal with |- context [memdb.violated ?rows] =>
      destruct (memdb.violated rows) as [err|] eqn:Hv end.
    + cbn [fst snd memdb.failed Error_]. split; [exact Hclock|].
      left. exists err. split; [reflexivity|]. split; [exact Hp|].
      right. exists stamp. exact Hv.
    + cbn [fst snd memdb.ok Error_]. unfold memdb.set_posts.
      cbn [memdb.clock memdb.posts]. split; [exact Hclock|].
      right. exists stamp. split; [tauto|]. split; [tauto|].
      split; [rewrite Hassign; reflexivity|]. split; [reflexivity | exact Hv].
Qed.

(** [UpdatePost] on an identifier with no stored row. *)
Lemma UpdatePost_absent (id : string) (payload : models.UpdatePost)
    (userID : UUID) (w : memdb.DB) :
  memdb.row id w = None ->
  services.UpdatePost id payload userID w
  = ((None, Some (errors_New "post not found")), w).
Proof.
  intros Hq. unfold services.UpdatePost, bind, query, ret.
  cbn [gorm.First memdb.world]. rewrite (OnMemdb.First_absent _ _ Hq).
  reflexivity.
Qed.

(** [DeletePost]: the store never fails, and reports the rows it removed. *)
Lemma DeletePost_run (id : string) (w : memdb.DB) :
  services.DeletePost id w
  = (if Z.of_nat (List.length
                    (filter (fun r => String.eqb (ID r) id) (memdb.posts w))) =? 0
     then Some (errors_New "post not found") else None,
     memdb.set_posts w
       (filter (fun r => negb (String.eqb (ID r) id)) (memdb.posts w))).
Proof.
  unfold services.DeletePost, bind, ret.
  cbn [gorm.Delete memdb.world]. unfold memdb.Delete.
  cbn [memdb.ok Error_ RowsAffected].
  destruct (_ =? 0); reflexivity.
Qed.

(** *** Creation *)

(** X8.  A request whose title is already stored is refused with the
    conflict error and the table is left as it was, whoever the caller is
    and whatever identifier the store would have generated. *)
Theorem CreatePost_title_taken (payload : CreatePostRequest) (userID : UUID)
    (w : memdb.DB) (r : Post) :
  In r (memdb.posts w) ->
  Title r = cTitle payload ->
  fst (services.CreatePost payload userID w)
  = (None, Some (errors_New "post with that title already exists"))
  /\ memdb.posts (snd (services.CreatePost payload userID w)) = memdb.posts w.
Proof.
  intros Hin Ht.
  destruct (CreatePost_run payload userID w) as (Hposts & _ & _ & _ & Hrun).
  rewrite Hrun. clear Hrun.
  match goal with |- context [memdb.violated ?rows] =>
    destruct (memdb.violated rows) as [err|] eqn:Hv end.
  - cbn [fst snd]. split; [reflexivity | exact Hposts].
  - exfalso. apply violated_none_iff in Hv. destruct Hv as [_ Hv].
    rewrite map_app in Hv. cbn [map Title] in Hv. apply nodupb_last in Hv.
    assert (Hex : existsb (String.eqb (cTitle payload))
                    (map Title (memdb.posts w)) = true).
    { apply existsb_eqb_In. rewrite <- Ht. apply in_map. exact Hin. }
    congruence.
Qed.

(** X9.  A successful creation adds exactly one row, the returned post, at
    the end of the table.  Its identifier and its title were not stored
    before, and what is stored under every other identifier is as before. *)
Theorem CreatePost_fresh (payload : CreatePostRequest) (userID : UUID)
    (w w' : memdb.DB) (p : Post) :
  services.CreatePost payload userID w = ((Some p, None), w') ->
  memdb.posts w' = (memdb.posts w ++ [p])%list
  /\ memdb.row (ID p) w = None
  /\ (forall r, In r (memdb.posts w) -> Title r <> Title p)
  /\ (forall id, id <> ID p -> memdb.row id w' = memdb.row id w).
Proof.
  destruct (CreatePost_run payload userID w) as (_ & _ & _ & _ & Hrun).
  rewrite Hrun. clear Hrun.
  match goal with |- context [memdb.violated ?rows] =>
    destruct (memdb.violated rows) as [err|] eqn:Hv end; [discriminate|].
  intros Hret. inversion Hret; subst p w'. clear Hret.
  apply violated_none_iff in Hv. destruct Hv as [Hids Htitles].
  rewrite map_app in Hids, Htitles. cbn [map ID Title] in Hids, Htitles.
  apply nodupb_last in Hids. apply nodupb_last in Htitles.
  unfold memdb.row, memdb.set_posts. cbn [memdb.posts ID Title].
  split; [reflexivity|]. split; [|split].
  - destruct (List.find _ (memdb.posts w)) as [q|] eqn:Hf; [|reflexivity].
    exfalso. destruct (find_first _ _ _ Hf) as [Hin Hid].
    assert (Hex : existsb (String.eqb (memdb.entropy w (memdb.drawn w)))
                    (map ID (memdb.posts w)) = true).
    { apply existsb_eqb_In. rewrite <- Hid. apply in_map. exact Hin. }
    congruence.
  - intros r Hin Heq.
    assert (Hex : existsb (String.eqb (cTitle payload))
                    (map Title (memdb.posts w)) = true).
    { apply existsb_eqb_In. rewrite <- Heq. apply in_map. exact Hin. }
    congruence.
  - intros id Hne. apply find_app_other. cbn [ID]. congruence.
Qed.

(** *** Update *)

(** X10.  A successful update touches only the post it names: what is
    stored under every other identifier is as before, and the table has as
    many rows as before. *)
Theorem UpdatePost_frame (id : string) (payload : models.UpdatePost)
    (userID : UUID) (w w' : memdb.DB) (q p : Post) :
  memdb.row id w = Some q ->
  services.UpdatePost id payload userID w = ((Some p, None), w') ->
  (forall id', id' <> id -> memdb.row id' w' = memdb.row id' w)
  /\ List.length (memdb.posts w') = List.length (memdb.posts w).
Proof.
  intros Hq Hupd.
  destruct (UpdatePost_run id payload userID w q Hq) as [_ Hrun].
  rewrite Hupd in Hrun. cbn [fst snd] in Hrun.
  destruct Hrun as [(cause & Hfail & _) | (stamp & _ & _ & _ & Hrows & _)];
    [discriminate|].
  split.
  - intros id' Hne. unfold memdb.row. rewrite Hrows, find_map_id.
    + destruct (List.find _ (memdb.posts w)) as [r|] eqn:Hf; [|reflexivity].
      cbn [option_map]. destruct (find_first _ _ _ Hf) as [_ Hid].
      assert (He : String.eqb (ID r) id = false)
        by (apply String.eqb_neq; congruence).
      rewrite He. reflexivity.
    + intros r. destruct (String.eqb (ID r) id); reflexivity.
  - rewrite Hrows. apply length_map.
Qed.

(** X11.  An update that gives a post the title of another stored post
    fails, and the failure is an internal error that wraps the store error,
    not the conflict error that creation reports for the same collision;
    the table is left as it was. *)
Theorem UpdatePost_title_taken (id : string) (payload : models.UpdatePost)
    (userID : UUID) (w : memdb.DB) (q r : Post) :
  memdb.row id w = Some q ->
  In r (memdb.posts w) ->
  ID r <> id ->
  Title r = uTitle payload ->
  uTitle payload <> "" ->
  exists cause,
    fst (services.UpdatePost id payload userID w)
    = (None, Some (fmt_Errorf_w "failed to update post: " cause))
    /\ InternalError (fmt_Errorf_w "failed to update post: " cause) cause
    /\ memdb.posts (snd (services.UpdatePost id payload userID w))
       = memdb.posts w.
Proof.
  intros Hq Hr Hne Ht Hnonempty.
  destruct (UpdatePost_run id payload userID w q Hq) as [_ Hrun].
  destruct Hrun as [(cause & Hfail & Hposts & _)
                   | (stamp & _ & _ & _ & Hrows & Hv)].
  - exists cause. split; [exact Hfail|]. split; [|exact Hposts].
    apply AnyWorld.wrapped_is_internal. eexists. reflexivity.
  - exfalso. rewrite Hrows in Hv. apply violated_none_iff in Hv.
    destruct Hv as [_ Hv]. rewrite map_map in Hv.
    destruct (find_first _ _ _ Hq) as [Hqin Hqid].
    apply In_nth_error in Hqin. destruct Hqin as [i Hi].
    apply In_nth_error in Hr. destruct Hr as [j Hj].
    assert (Hij : i <> j).
    { intros He. subst j. rewrite Hi in Hj. inversion Hj; subst r. congruence. }
    apply (proj1 (nodupb_nth _) Hv i j (uTitle payload) (uTitle payload));
      [| |exact Hij|reflexivity].
    + rewrite nth_error_map, Hi. cbn [option_map]. rewrite Hqid, String.eqb_refl.
      unfold memdb.assign, updatedData. cbn [Title].
      apply String.eqb_neq in Hnonempty. rewrite Hnonempty. reflexivity.
    + rewrite nth_error_map, Hj. cbn [option_map].
      apply String.eqb_neq in Hne. rewrite Hne. rewrite Ht. reflexivity.
Qed.

(** X12.  After a successful update, [FindPostByID] on the same identifier
    returns, field for field, the post the update returned. *)
Theorem Update_then_FindByID (id : string) (payload : models.UpdatePost)
    (userID : UUID) (w w' : memdb.DB) (q p : Post) :
  memdb.row id w = Some q ->
  services.UpdatePost id payload userID w = ((Some p, None), w') ->
  services.FindPostByID id w' = ((Some p, None), w').
Proof.
  intros Hq Hupd.
  destruct (OnMemdb.UpdatePost_success _ _ _ _ _ _ _ Hq Hupd) as (Hrow & _).
  apply OnMemdb.FindPostByID_existing. exact Hrow.
Qed.

(** *** Lookup and deletion *)

(** [FindPostByID] on an identifier with no stored row. *)
Lemma FindPostByID_absent (id : string) (w : memdb.DB) :
  memdb.row id w = None ->
  services.FindPostByID id w = ((None, Some (errors_New "post not found")), w).
Proof.
  intros Hq. unfold services.FindPostByID, bind, query, ret.
  cbn [gorm.First memdb.world]. rewrite (OnMemdb.First_absent _ _ Hq).
  reflexivity.
Qed.

(** X13.  [FindPostByID] returns the row stored under the identifier when
    there is one and the error [post not found] when there is none; on this
    world it has no other outcome. *)
Theorem FindPostByID_stored (id : string) (w : memdb.DB) :
  services.FindPostByID id w
  = (match memdb.row id w with
     | Some q => (Some q, None)
     | None => (None, Some (errors_New "post not found"))
     end, w).
Proof.
  destruct (memdb.row id w) as [q|] eqn:Hq.
  - apply OnMemdb.FindPostByID_existing. exact Hq.
  - apply FindPostByID_absent. exact Hq.
Qed.

(** X14.  [DeletePost] succeeds exactly when a post is stored under the
    identifier; when none is, it reports [post not found] and leaves the
    table as it was. *)
Theorem DeletePost_stored (id : string) (w : memdb.DB) :
  (fst (services.DeletePost id w) = None <-> memdb.row id w <> None)
  /\ (memdb.row id w = None ->
      fst (services.DeletePost id w) = Some (errors_New "post not found")
      /\ memdb.posts (snd (services.DeletePost id w)) = memdb.posts w).
Proof.
  rewrite DeletePost_run. cbn [fst snd]. unfold memdb.row, memdb.set_posts.
  cbn [memdb.posts].
  destruct (List.find _ (memdb.posts w)) as [q|] eqn:Hf.
  - pose proof (find_some_filter _ _ _ Hf) as Hne.
    destruct (filter (fun r => String.eqb (ID r) id) (memdb.posts w)) as [|a l];
      [contradiction|].
    cbn [List.length]. split; [|discriminate].
    split; [discriminate | reflexivity].
  - destruct (find_none_filter _ _ Hf) as [Hkeep Hnone].
    rewrite Hnone, Hkeep. cbn. split; [|split; reflexivity].
    split; [discriminate | intros Hn; contradiction].
Qed.

(** X15.  After [DeletePost], whatever its outcome, nothing is stored under
    the identifier: [FindPostByID] and a second [DeletePost] both report
    [post not found].  What is stored under every other identifier is as
    before. *)
Theorem DeletePost_gone (id : string) (w : memdb.DB) :
  let w' := snd (services.DeletePost id w) in
  memdb.row id w' = None
  /\ services.FindPostByID id w' = ((None, Some (errors_New "post not found")), w')
  /\ services.DeletePost id w' = (Some (errors_New "post not found"), w')
  /\ (forall id', id' <> id -> memdb.row id' w' = memdb.row id' w).
Proof.
  cbv zeta. rewrite (DeletePost_run id w). cbn [snd].
  set (w' := memdb.set_posts w _).
  assert (Hgone : memdb.row id w' = None).
  { unfold memdb.row, w', memdb.set_posts. cbn [memdb.posts].
    apply find_filter_gone. }
  split; [exact Hgone|]. split; [|split].
  - apply FindPostByID_absent. exact Hgone.
  - rewrite DeletePost_run.
    destruct (find_none_filter _ _ Hgone) as [Hkeep Hnone].
    rewrite Hnone, Hkeep. cbn [List.length Z.of_nat Z.eqb].
    unfold w', memdb.set_posts. reflexivity.
  - intros id' Hne. unfold memdb.row, w', memdb.set_posts. cbn [memdb.posts].
    apply find_filter_other. exact Hne.
Qed.

(** *** Pages *)

(** The rows of a page, for a page number and a limit that are at least 1
    and whose offset fits an [int]. *)
Lemma FindPosts_rows (page limit : Z) (w : memdb.DB) :
  1 <= page <= maxInt ->
  1 <= limit <= maxInt ->
  (page - 1) * limit <= maxInt ->
  services.FindPosts page limit w
  = ((Some (firstn (Z.to_nat limit)
              (skipn (Z.to_nat ((page - 1) * limit)) (memdb.posts w))), None), w).
Proof.
  intros Hp Hl Hfit. rewrite AnyWorld.service_FindPosts_query.
  cbn [gorm.Find memdb.world]. unfold memdb.Find, int_mul, int_sub.
  rewrite (wrap_small (page - 1)) by (unfold minInt, maxInt in *; lia).
  rewrite (wrap_small ((page - 1) * limit))
    by (unfold minInt, maxInt in *; nia).
  cbn [fst snd memdb.ok Error_].
  assert (Hlim : (0 <=? limit) = true) by (apply Z.leb_le; lia).
  rewrite Hlim.
  destruct (0 <? (page - 1) * limit) eqn:Hoff; [reflexivity|].
  apply Z.ltb_ge in Hoff.
  assert (Hzero : (page - 1) * limit = 0) by nia.
  rewrite Hzero. reflexivity.
Qed.

(** X16.  For a page number and a limit that are at least 1 (and an offset
    that fits an [int]), [FindPosts] succeeds with the window of the table
    that starts after [(page - 1) * limit] rows and holds at most [limit]
    rows: as many as are left, and none, without an error, for a page past
    the end. *)
Theorem FindPosts_window (page limit : Z) (w : memdb.DB) :
  1 <= page <= maxInt ->
  1 <= limit <= maxInt ->
  (page - 1) * limit <= maxInt ->
  exists rows,
    services.FindPosts page limit w = ((Some rows, None), w)
    /\ rows = firstn (Z.to_nat limit)
                (skipn (Z.to_nat ((page - 1) * limit)) (memdb.posts w))
    /\ List.length rows
       = Nat.min (Z.to_nat limit)
           (List.length (memdb.posts w) - Z.to_nat ((page - 1) * limit))
    /\ (Z.of_nat (List.length (memdb.posts w)) <= (page - 1) * limit ->
        rows = []).
Proof.
  intros Hp Hl Hfit. eexists. split; [apply FindPosts_rows; assumption|].
  split; [reflexivity|]. split.
  - rewrite length_firstn, length_skipn. reflexivity.
  - intros Hend. apply length_zero_iff_nil.
    rewrite length_firstn, length_skipn. lia.
Qed.

(** X17.  Pages 1 to [n] of the same limit, read one after the other from
    an unchanged table, are the first [n * limit] rows of the table in
    order, each row once: consecutive pages neither overlap nor skip a row,
    and enough pages give the whole table. *)
Theorem pages_tile (n : nat) (limit : Z) (w : memdb.DB) :
  1 <= limit ->
  Z.of_nat n * limit <= maxInt ->
  paging.pages_upto n limit w
  = firstn (n * Z.to_nat limit) (memdb.posts w)
  /\ (List.length (memdb.posts w) <= n * Z.to_nat limit ->
      paging.pages_upto n limit w = memdb.posts w)%nat.
Proof.
  intros Hl Hfit.
  assert (Hpages : paging.pages_upto n limit w
                   = firstn (n * Z.to_nat limit) (memdb.posts w)).
  { induction n as [|k IH]; [reflexivity|].
    cbn [paging.pages_upto]. rewrite IH by nia.
    unfold paging.page_rows.
    rewrite FindPosts_rows by (unfold maxInt in *; nia).
    cbn [fst].
    replace (Z.to_nat ((Z.of_nat (S k) - 1) * limit))
      with (k * Z.to_nat limit)%nat by nia.
    rewrite <- firstn_plus. f_equal. lia. }
  split; [exact Hpages|].
  intros Hall. rewrite Hpages. apply firstn_all2. exact Hall.
Qed.

(** *** Invariants of the worlds the service reaches *)

Lemma nodupb_filter {A} (f : A -> string) (g : A -> bool) (l : list A) :
  memdb.nodupb (map f l) = true -> memdb.nodupb (map f (filter g l)) = true.
Proof.
  induction l as [|a l IH]; [reflexivity|].
  cbn [map memdb.nodupb filter]. intros Hn.
  apply andb_true_iff in Hn. destruct Hn as [Ha Hl].
  destruct (g a); [|exact (IH Hl)].
  cbn [map memdb.nodupb]. apply andb_true_iff. split; [|exact (IH Hl)].
  apply negb_true_iff in Ha. apply negb_true_iff.
  destruct (existsb (String.eqb (f a)) (map f (filter g l))) eqn:He;
    [|reflexivity].
  apply existsb_eqb_In in He. apply in_map_iff in He.
  destruct He as [x [Hx Hin]]. apply filter_In in Hin. destruct Hin as [Hin _].
  assert (Hex : existsb (String.eqb (f a)) (map f l) = true).
  { apply existsb_eqb_In. rewrite <- Hx. apply in_map. exact Hin. }
  congruence.
Qed.

Lemma violated_filter (g : Post -> bool) (rows : list Post) :
  memdb.violated rows = None -> memdb.violated (filter g rows) = None.
Proof.
  intros Hv. apply violated_none_iff in Hv. destruct Hv as [Hi Ht].
  apply violated_none_iff. split; apply nodupb_filter; assumption.
Qed.

(** Every table the service reaches passes the constraints. *)
Lemma reachable_checked (w : memdb.DB) :
  history.reachable w -> memdb.violated (memdb.posts w) = None.
Proof.
  induction 1 as [w Hempty | w _ IH | w payload userID _ IH
                  | w id payload userID _ IH | w id _ IH].
  - rewrite Hempty. reflexivity.
  - pose proof (Now_reading w) as (_ & _ & _ & Hp & _). rewrite Hp. exact IH.
  - destruct (CreatePost_run payload userID w) as (Hposts & _ & _ & _ & Hrun).
    remember (snd (memdb.generate (snd (memdb.Now (snd (memdb.Now w))))))
      as w2 eqn:Ew2 in *.
    match type of Hrun with context [memdb.violated ?rows] =>
      destruct (memdb.violated rows) as [err|] eqn:Hv end; rewrite Hrun.
    + cbn [snd]. rewrite Hposts. exact IH.
    + cbn [snd]. unfold memdb.set_posts. cbn [memdb.posts]. exact Hv.
  - destruct (memdb.row id w) as [q|] eqn:Hq.
    + destruct (UpdatePost_run id payload userID w q Hq) as [_ Hrun].
      destruct Hrun as [(cause & _ & Hposts & _) | (stamp & _ & _ & _ & _ & Hv)].
      * rewrite Hposts. exact IH.
      * exact Hv.
    + rewrite (UpdatePost_absent _ _ _ _ Hq). exact IH.
  - rewrite DeletePost_run. cbn [snd]. unfold memdb.set_posts.
    cbn [memdb.posts]. apply violated_filter. exact IH.
Qed.

(** X18.  In every world the service reaches from an empty table, no two
    stored posts share an identifier or a title. *)
Theorem reachable_distinct (w : memdb.DB) :
  history.reachable w -> invariant.distinct w.
Proof.
  intros Hr. apply reachable_checked in Hr. apply violated_none_iff in Hr.
  destruct Hr as [Hi Ht]. intros i j r1 r2 H1 H2 Hij. split.
  - apply (proj1 (nodupb_nth _) Hi i j); [| |exact Hij];
      rewrite nth_error_map; [rewrite H1 | rewrite H2]; reflexivity.
  - apply (proj1 (nodupb_nth _) Ht i j); [| |exact Hij];
      rewrite nth_error_map; [rewrite H1 | rewrite H2]; reflexivity.
Qed.

(** X19.  In every world the service reaches from an empty table, each
    stored post has a creation timestamp after the zero instant, an update
    timestamp that is not before its creation timestamp, and no timestamp
    ahead of the clock. *)
Theorem reachable_ordered (w : memdb.DB) :
  history.reachable w -> invariant.ordered w.
Proof.
  unfold invariant.ordered.
  induction 1 as [w Hempty | w _ IH | w payload userID _ IH
                  | w id payload userID _ IH | w id _ IH].
  - rewrite Hempty. intros r [].
  - pose proof (Now_reading w) as (_ & Hge & Hck & Hp & _).
    rewrite Hp. intros r Hin. specialize (IH r Hin). lia.
  - destruct (CreatePost_run payload userID w)
      as (Hposts & Hle & Hge & Hpos & Hrun).
    remember (snd (memdb.generate (snd (memdb.Now (snd (memdb.Now w))))))
      as w2 eqn:Ew2 in *.
    remember (fst (memdb.Now w)) as now eqn:Enow in *.
    rewrite Hrun.
    match goal with |- context [memdb.violated ?rows] =>
      destruct (memdb.violated rows) as [err|] end; cbn [snd].
    + rewrite Hposts. intros r Hin. specialize (IH r Hin). lia.
    + unfold memdb.set_posts. cbn [memdb.posts memdb.clock].
      intros r Hin. apply in_app_or in Hin. destruct Hin as [Hin|[Hin|[]]].
      * specialize (IH r Hin). lia.
      * subst r. cbn [CreatedAt UpdatedAt]. lia.
  - destruct (memdb.row id w) as [q|] eqn:Hq.
    + destruct (UpdatePost_run id payload userID w q Hq) as [Hclock Hrun].
      destruct Hrun as [(cause & _ & Hposts & _)
                       | (stamp & Hpos & Hst & _ & Hrows & _)].
      * rewrite Hposts. intros r Hin. specialize (IH r Hin). lia.
      * rewrite Hrows. intros r Hin. apply in_map_iff in Hin.
        destruct Hin as [r0 [Hr Hin0]]. specialize (IH r0 Hin0).
        destruct (String.eqb (ID r0) id); subst r.
        -- unfold memdb.assign, updatedData. cbn [CreatedAt UpdatedAt].
           cbn [Time_IsZero Time_zero Z.eqb]. lia.
        -- lia.
    + rewrite (UpdatePost_absent _ _ _ _ Hq). exact IH.
  - rewrite DeletePost_run. cbn [snd]. unfold memdb.set_posts.
    cbn [memdb.posts memdb.clock]. intros r Hin.
    apply filter_In in Hin. destruct Hin as [Hin _]. exact (IH r Hin).
Qed.

End Compose.

(* ===================================================================== *)
(** ** The further statements at sample inputs *)
(* ===================================================================== *)

Module Scenarios.
Import Go GoFacts models gorm spec.

(** With the store out of reach the lookup fails, and the update reports
    an internal error that wraps the cause, without touching the world. *)
Lemma UpdatePost_outcomes_witness :
  exists e,
    services.UpdatePost (H := samples.offline) samples.P1 samples.rename
      samples.U2 tt = ((None, Some e), tt)
    /\ InternalError e samples.down.
Proof.
  destruct (@Outcomes.UpdatePost_outcomes unit samples.offline samples.P1
              samples.rename samples.U2 tt) as [Hlookup _].
  destruct (Hlookup samples.down eq_refl eq_refl) as (e & Hrun & Hint & _).
  exists e. split; [exact Hrun | exact Hint].
Defined.

(** [U2] asks for a second post titled Alps Trip. *)
Lemma CreatePost_title_taken_witness :
  In samples.alps_post (memdb.posts samples.one_post)
  /\ Title samples.alps_post = cTitle samples.alps
  /\ fst (services.CreatePost samples.alps samples.U2 samples.one_post)
     = (None, Some (errors_New "post with that title already exists"))
  /\ memdb.posts (snd (services.CreatePost samples.alps samples.U2
                         samples.one_post))
     = [samples.alps_post].
Proof.
  split; [left; reflexivity|]. split; [reflexivity|].
  apply (Compose.CreatePost_title_taken samples.alps samples.U2
           samples.one_post samples.alps_post);
    [left; reflexivity | reflexivity].
Defined.

(** [U2] adds the Dolomites post: it goes to the end of the table under the
    new identifier [P2], and the Alps post is still found under [P1]. *)
Lemma CreatePost_fresh_witness :
  services.CreatePost samples.dolomites samples.U2 samples.one_post
  = ((Some travel.dolomites_post, None), travel.two_posts)
  /\ memdb.row samples.P2 samples.one_post = None
  /\ memdb.row samples.P1 travel.two_posts = memdb.row samples.P1 samples.one_post.
Proof.
  assert (Hrun : services.CreatePost samples.dolomites samples.U2 samples.one_post
                 = ((Some travel.dolomites_post, None), travel.two_posts))
    by reflexivity.
  split; [exact Hrun|].
  destruct (Compose.CreatePost_fresh samples.dolomites samples.U2
              samples.one_post travel.two_posts travel.dolomites_post Hrun)
    as (_ & Hnew & _ & Hother).
  split; [exact Hnew|]. apply Hother. discriminate.
Defined.

(** Renaming the Alps post leaves the Dolomites post as it is. *)
Lemma UpdatePost_frame_witness :
  memdb.row samples.P1 travel.two_posts = Some samples.alps_post
  /\ memdb.row samples.P2
       (snd (services.UpdatePost samples.P1 samples.rename samples.U2
               travel.two_posts))
     = Some travel.dolomites_post.
Proof.
  split; [reflexivity|].
  assert (Hrun :
    services.UpdatePost samples.P1 samples.rename samples.U2 travel.two_posts
    = ((Some {| ID := samples.P1; Title := "Alps Trip 2";
                Content := "Three days above Zermatt"; Image := "";
                User := samples.U2; CreatedAt := 1005; UpdatedAt := 1012 |},
        None),
       snd (services.UpdatePost samples.P1 samples.rename samples.U2
              travel.two_posts)))
    by (vm_compute; reflexivity).
  destruct (Compose.UpdatePost_frame samples.P1 samples.rename samples.U2
              travel.two_posts _ samples.alps_post _ eq_refl Hrun)
    as [Hother _].
  rewrite (Hother samples.P2); [reflexivity | discriminate].
Defined.

(** Giving the Alps post the title of the Dolomites post. *)
Lemma UpdatePost_title_taken_witness :
  memdb.row samples.P1 travel.two_posts = Some samples.alps_post
  /\ In travel.dolomites_post (memdb.posts travel.two_posts)
  /\ exists cause,
       fst (services.UpdatePost samples.P1 travel.steal_title samples.U1
              travel.two_posts)
       = (None, Some (fmt_Errorf_w "failed to update post: " cause))
       /\ memdb.posts (snd (services.UpdatePost samples.P1 travel.steal_title
                              samples.U1 travel.two_posts))
          = memdb.posts travel.two_posts.
Proof.
  split; [reflexivity|]. split; [right; left; reflexivity|].
  destruct (Compose.UpdatePost_title_taken samples.P1 travel.steal_title
              samples.U1 travel.two_posts samples.alps_post
              travel.dolomites_post)
    as (cause & Hrun & _ & Hposts).
  - reflexivity.
  - right. left. reflexivity.
  - discriminate.
  - reflexivity.
  - discriminate.
  - exists cause. split; [exact Hrun | exact Hposts].
Defined.

(** The renamed post is found as the update returned it. *)
Lemma Update_then_FindByID_witness :
  memdb.row samples.P1 samples.one_post = Some samples.alps_post
  /\ exists p w',
       services.UpdatePost samples.P1 samples.rename samples.U2 samples.one_post
       = ((Some p, None), w')
       /\ services.FindPostByID samples.P1 w' = ((Some p, None), w').
Proof.
  split; [reflexivity|].
  assert (Hrun :
    services.UpdatePost samples.P1 samples.rename samples.U2 samples.one_post
    = ((Some {| ID := samples.P1; Title := "Alps Trip 2";
                Content := "Three days above Zermatt"; Image := "";
                User := samples.U2; CreatedAt := 1005; UpdatedAt := 1012 |},
        None),
       snd (services.UpdatePost samples.P1 samples.rename samples.U2
              samples.one_post)))
    by (vm_compute; reflexivity).
  eexists. eexists. split; [exact Hrun|].
  apply (Compose.Update_then_FindByID samples.P1 samples.rename samples.U2
           samples.one_post _ samples.alps_post _ eq_refl Hrun).
Defined.

(** Page 2 of limit 1 of the two posts is the second post; page 3 is empty. *)
Lemma FindPosts_window_witness :
  (exists rows,
     services.FindPosts 2 1 travel.two_posts = ((Some rows, None), travel.two_posts)
     /\ rows = [travel.dolomites_post])
  /\ (exists rows,
        services.FindPosts 3 1 travel.two_posts
        = ((Some rows, None), travel.two_posts)
        /\ rows = []).
Proof.
  split.
  - destruct (Compose.FindPosts_window 2 1 travel.two_posts)
      as (rows & Hrun & Hrows & _);
      [unfold maxInt; lia | unfold maxInt; lia | unfold maxInt; lia |].
    exists rows. split; [exact Hrun | exact Hrows].
  - destruct (Compose.FindPosts_window 3 1 travel.two_posts)
      as (rows & Hrun & _ & _ & Hend);
      [unfold maxInt; lia | unfold maxInt; lia | unfold maxInt; lia |].
    exists rows. split; [exact Hrun|]. apply Hend. cbn. lia.
Defined.

(** Two pages of limit 1 give the two posts. *)
Lemma pages_tile_witness :
  paging.pages_upto 2 1 travel.two_posts
  = [samples.alps_post; travel.dolomites_post].
Proof.
  destruct (Compose.pages_tile 2 1 travel.two_posts) as [_ Hall];
    [lia | unfold maxInt; lia |].
  apply Hall. cbn. lia.
Defined.

(** The two posts were created through the service, so they differ in
    identifier and in title. *)
Lemma reachable_distinct_witness :
  history.reachable travel.two_posts
  /\ ID samples.alps_post <> ID travel.dolomites_post
  /\ Title samples.alps_post <> Title travel.dolomites_post.
Proof.
  assert (Hr : history.reachable travel.two_posts).
  { change travel.two_posts
      with (snd (services.CreatePost samples.dolomites samples.U2
                   (snd (services.CreatePost samples.alps samples.U1
                           samples.empty)))).
    apply history.reach_CreatePost, history.reach_CreatePost,
      history.reach_empty. reflexivity. }
  split; [exact Hr|].
  apply (Compose.reachable_distinct travel.two_posts Hr 0%nat 1%nat);
    [reflexivity | reflexivity | discriminate].
Defined.

(** And their timestamps are in order. *)
Lemma reachable_ordered_witness :
  history.reachable travel.two_posts
  /\ 0 < CreatedAt travel.dolomites_post
  /\ CreatedAt travel.dolomites_post <= UpdatedAt travel.dolomites_post
  /\ UpdatedAt travel.dolomites_post <= Z.pos (memdb.clock travel.two_posts).
Proof.
  assert (Hr : history.reachable travel.two_posts).
  { change travel.two_posts
      with (snd (services.CreatePost samples.dolomites samples.U2
                   (snd (services.CreatePost samples.alps samples.U1
                           samples.empty)))).
    apply history.reach_CreatePost, history.reach_CreatePost,
      history.reach_empty. reflexivity. }
  split; [exact Hr|].
  apply (Compose.reachable_ordered travel.two_posts Hr travel.dolomites_post).
  right. left. reflexivity.
Defined.

End Scenarios.
